(** * CameraColorPicker: a shallow embedding of the colour-sampling component

    The component [CameraColorPicker] is modelled as a record of its React
    state and refs, the part of the platform it talks to (stream tracks,
    timers, toasts, console) and one function per handler.  Asynchronous
    handlers are given the outcome of the promise they await.  The source
    also holds an earlier variant of the component whose two sampling points
    are fixed; what follows is the later one, with draggable points. *)

From Stdlib Require Import ZArith QArith Qround String Ascii List Bool Lia Lqa.
From Stdlib Require Import Strings.Byte.
From Stdlib Require Import Hexadecimal HexadecimalString.
From Stdlib Require Floats.PrimFloat Floats.FloatOps Floats.SpecFloat.
From Stdlib Require Uint63.
From stdpp Require Import base gmap sets.
Import ListNotations.

Local Open Scope string_scope.
Local Open Scope Z_scope.

(** ** JavaScript numbers

    A [number] is a finite value, one of the two infinities, or NaN.  Finite
    values are exact rationals: the rounding of binary64 arithmetic is not
    modelled, and neither is the sign of zero (every zero is [+0]).  The
    special values follow IEEE 754 as JavaScript does. *)
Module JsNumber.

Inductive number : Type :=
| Fin (q : Q)
| PosInf
| NegInf
| NaN.

Definition of_Z (z : Z) : number := Fin (inject_Z z).

(** [a - b] *)
Definition sub (a b : number) : number :=
  match a, b with
  | NaN, _ | _, NaN => NaN
  | Fin p, Fin q => Fin (p - q)
  | Fin _, PosInf => NegInf
  | Fin _, NegInf => PosInf
  | PosInf, PosInf => NaN
  | NegInf, NegInf => NaN
  | PosInf, _ => PosInf
  | NegInf, _ => NegInf
  end.

(** The infinity carrying the sign of a comparison with zero. *)
Definition signed_inf (c : comparison) (zero : number) : number :=
  match c with
  | Gt => PosInf
  | Lt => NegInf
  | Eq => zero
  end.

Definition flip (c : comparison) : comparison := CompOpp c.

(** [a / b]: a finite value over zero is an infinity, zero over zero is NaN. *)
Definition div (a b : number) : number :=
  match a, b with
  | NaN, _ | _, NaN => NaN
  | Fin p, Fin q =>
      match (q ?= 0)%Q with
      | Eq => signed_inf (p ?= 0)%Q NaN
      | _ => Fin (p / q)
      end
  | Fin _, _ => Fin 0
  | PosInf, Fin q => signed_inf (match (q ?= 0)%Q with Eq => Gt | c => c end) NaN
  | NegInf, Fin q => signed_inf (flip (match (q ?= 0)%Q with Eq => Gt | c => c end)) NaN
  | _, _ => NaN
  end.

(** [a * b]: an infinity times zero is NaN. *)
Definition mul (a b : number) : number :=
  match a, b with
  | NaN, _ | _, NaN => NaN
  | Fin p, Fin q => Fin (p * q)
  | Fin p, PosInf | PosInf, Fin p => signed_inf (p ?= 0)%Q NaN
  | Fin p, NegInf | NegInf, Fin p => signed_inf (flip (p ?= 0)%Q) NaN
  | PosInf, PosInf | NegInf, NegInf => PosInf
  | PosInf, NegInf | NegInf, PosInf => NegInf
  end.

(** [Math.min(a, b)] and [Math.max(a, b)]: NaN if either argument is NaN. *)
Definition Math_min (a b : number) : number :=
  match a, b with
  | NaN, _ | _, NaN => NaN
  | NegInf, _ | _, NegInf => NegInf
  | PosInf, c | c, PosInf => c
  | Fin p, Fin q => if Qle_bool p q then Fin p else Fin q
  end.

Definition Math_max (a b : number) : number :=
  match a, b with
  | NaN, _ | _, NaN => NaN
  | PosInf, _ | _, PosInf => PosInf
  | NegInf, c | c, NegInf => c
  | Fin p, Fin q => if Qle_bool p q then Fin q else Fin p
  end.

(** [Math.floor(a)] *)
Definition Math_floor (a : number) : number :=
  match a with
  | Fin q => of_Z (Qfloor q)
  | other => other
  end.

(** A finite number between [lo] and [hi], both included. *)
Definition between (lo hi : Q) (a : number) : Prop :=
  match a with
  | Fin q => (lo <= q /\ q <= hi)%Q
  | _ => False
  end.

(** The integer part of a finite value, rounding towards zero. *)
Definition truncate (q : Q) : Z := Z.quot (Qnum q) (Z.pos (Qden q)).

Definition is_NaN (a : number) : bool :=
  match a with NaN => true | _ => false end.

End JsNumber.
Import JsNumber.

(** ** Strings: [toString(16)], [padStart], [join] *)

(** [x.toString(16)] for an integer [x]: lowercase digits, no leading zero,
    a minus sign for a negative value. *)
Definition toString16 (x : Z) : string :=
  NilZero.string_of_int (Z.to_hex_int x).

(** The first [k] characters of [pad] repeated for ever; [cur] is what is
    left of the copy under way. *)
Fixpoint fill (k : nat) (cur pad : string) : string :=
  match k with
  | O => EmptyString
  | S k' =>
      match cur with
      | String c rest => String c (fill k' rest pad)
      | EmptyString =>
          match pad with
          | String c rest => String c (fill k' rest pad)
          | EmptyString => EmptyString
          end
      end
  end.

(** [s.padStart(targetLength, padString)] *)
Definition padStart (targetLength : nat) (padString : string) (s : string) : string :=
  if (targetLength <=? String.length s)%nat then s
  else append (fill (targetLength - String.length s) padString padString) s.

(** [parts.join('')] *)
Definition join (parts : list string) : string :=
  fold_right append EmptyString parts.

(** ** Colour samples *)

Record RGB : Type := { r : Z; g : Z; b : Z }.

Record ColorData : Type := { hex : string; rgb : RGB }.

Definition rgbToHex (r g b : Z) : string :=
  String "#" (join (map (fun x => padStart 2 "0" (toString16 x)) [r; g; b])).

(** The sample the component starts with and falls back to. *)
Definition black : ColorData :=
  {| hex := "#000000"; rgb := {| r := 0; g := 0; b := 0 |} |}.

(** ** Platform objects *)

(** A pixel as [getImageData] hands it out: red, green, blue and alpha, one
    byte each. *)
Definition Pixel : Type := (byte * byte * byte * byte)%type.

Definition transparent_black : Pixel := (x00, x00, x00, x00)%byte.

Definition channel (c : byte) : Z := Z.of_N (Byte.to_N c).

(** A media stream is known by the identifiers of its tracks. *)
Record MediaStream : Type := { getTracks : list nat }.

Record HTMLVideoElement : Type := {
  videoWidth : Z;
  videoHeight : Z;
  frame : Z -> Z -> Pixel;          (* the picture shown right now *)
  srcObject : option MediaStream;
  playing : bool
}.

(** The hidden canvas is redrawn from the video on every read, so nothing it
    holds survives from one call to the next; only whether it yields a 2D
    context matters. *)
Record HTMLCanvasElement : Type := { getContext2d : bool }.

Record DOMRect : Type := {
  rect_left : Q;
  rect_top : Q;
  rect_width : Q;
  rect_height : Q
}.

Record MouseEvent : Type := { clientX : Q; clientY : Q }.

Record Toast : Type := {
  title : string;
  description : string;
  variant : option string
}.

(** The outcome of an awaited promise. *)
Inductive Settled (A : Type) : Type :=
| Fulfilled (value : A)
| Rejected (reason : string).
Arguments Fulfilled {A} value.
Arguments Rejected {A} reason.

(** ** Component state *)

Record SamplingPoint : Type := { x : number; y : number }.

Inductive PointName : Type := Top | Bottom.

(** What one rendering of [updateColors] has captured. *)
Record Captured : Type := {
  captured_isActive : bool;
  captured_topPoint : SamplingPoint;
  captured_bottomPoint : SamplingPoint
}.

Record State : Type := {
  (* useState *)
  isActive : bool;
  topColor : ColorData;
  bottomColor : ColorData;
  copiedColor : option string;
  topPoint : SamplingPoint;
  bottomPoint : SamplingPoint;
  isDragging : option PointName;
  (* useRef *)
  videoRef : option HTMLVideoElement;
  canvasRef : option HTMLCanvasElement;
  streamRef : option MediaStream;
  (* the platform *)
  liveTracks : gset nat;            (* tracks that have not been stopped *)
  interval : option Captured;       (* the 100 ms sampling timer, if armed *)
  timeouts : list Z;                (* due times of the pending
                                       [() => setCopiedColor(null)] callbacks *)
  now : Z;                          (* milliseconds *)
  toasts : list Toast;
  console : list (string * string);
  pendingMedia : nat;               (* getUserMedia calls not settled yet *)
  pendingCopies : list string       (* writeText calls not settled yet *)
}.

Definition initialState : State := {|
  isActive := false;
  topColor := black;
  bottomColor := black;
  copiedColor := None;
  topPoint := {| x := Fin 50; y := Fin 20 |};
  bottomPoint := {| x := Fin 50; y := Fin 80 |};
  isDragging := None;
  videoRef := None;
  canvasRef := None;
  streamRef := None;
  liveTracks := ∅;
  interval := None;
  timeouts := [];
  now := 0;
  toasts := [];
  console := [];
  pendingMedia := 0;
  pendingCopies := []
|}.

(** *** Field updates *)

Definition setIsActive (v : bool) (s : State) : State :=
  {| isActive := v; topColor := topColor s; bottomColor := bottomColor s;
     copiedColor := copiedColor s; topPoint := topPoint s; bottomPoint := bottomPoint s;
     isDragging := isDragging s; videoRef := videoRef s; canvasRef := canvasRef s;
     streamRef := streamRef s; liveTracks := liveTracks s; interval := interval s;
     timeouts := timeouts s; now := now s; toasts := toasts s; console := console s;
     pendingMedia := pendingMedia s; pendingCopies := pendingCopies s |}.

Definition setTopColor (v : ColorData) (s : State) : State :=
  {| isActive := isActive s; topColor := v; bottomColor := bottomColor s;
     copiedColor := copiedColor s; topPoint := topPoint s; bottomPoint := bottomPoint s;
     isDragging := isDragging s; videoRef := videoRef s; canvasRef := canvasRef s;
     streamRef := streamRef s; liveTracks := liveTracks s; interval := interval s;
     timeouts := timeouts s; now := now s; toasts := toasts s; console := console s;
     pendingMedia := pendingMedia s; pendingCopies := pendingCopies s |}.

Definition setBottomColor (v : ColorData) (s : State) : State :=
  {| isActive := isActive s; topColor := topColor s; bottomColor := v;
     copiedColor := copiedColor s; topPoint := topPoint s; bottomPoint := bottomPoint s;
     isDragging := isDragging s; videoRef := videoRef s; canvasRef := canvasRef s;
     streamRef := streamRef s; liveTracks := liveTracks s; interval := interval s;
     timeouts := timeouts s; now := now s; toasts := toasts s; console := console s;
     pendingMedia := pendingMedia s; pendingCopies := pendingCopies s |}.

Definition setCopiedColor (v : option string) (s : State) : State :=
  {| isActive := isActive s; topColor := topColor s; bottomColor := bottomColor s;
     copiedColor := v; topPoint := topPoint s; bottomPoint := bottomPoint s;
     isDragging := isDragging s; videoRef := videoRef s; canvasRef := canvasRef s;
     streamRef := streamRef s; liveTracks := liveTracks s; interval := interval s;
     timeouts := timeouts s; now := now s; toasts := toasts s; console := console s;
     pendingMedia := pendingMedia s; pendingCopies := pendingCopies s |}.

Definition setTopPoint (v : SamplingPoint) (s : State) : State :=
  {| isActive := isActive s; topColor := topColor s; bottomColor := bottomColor s;
     copiedColor := copiedColor s; topPoint := v; bottomPoint := bottomPoint s;
     isDragging := isDragging s; videoRef := videoRef s; canvasRef := canvasRef s;
     streamRef := streamRef s; liveTracks := liveTracks s; interval := interval s;
     timeouts := timeouts s; now := now s; toasts := toasts s; console := console s;
     pendingMedia := pendingMedia s; pendingCopies := pendingCopies s |}.

Definition setBottomPoint (v : SamplingPoint) (s : State) : State :=
  {| isActive := isActive s; topColor := topColor s; bottomColor := bottomColor s;
     copiedColor := copiedColor s; topPoint := topPoint s; bottomPoint := v;
     isDragging := isDragging s; videoRef := videoRef s; canvasRef := canvasRef s;
     streamRef := streamRef s; liveTracks := liveTracks s; interval := interval s;
     timeouts := timeouts s; now := now s; toasts := toasts s; console := console s;
     pendingMedia := pendingMedia s; pendingCopies := pendingCopies s |}.

Definition setIsDragging (v : option PointName) (s : State) : State :=
  {| isActive := isActive s; topColor := topColor s; bottomColor := bottomColor s;
     copiedColor := copiedColor s; topPoint := topPoint s; bottomPoint := bottomPoint s;
     isDragging := v; videoRef := videoRef s; canvasRef := canvasRef s;
     streamRef := streamRef s; liveTracks := liveTracks s; interval := interval s;
     timeouts := timeouts s; now := now s; toasts := toasts s; console := console s;
     pendingMedia := pendingMedia s; pendingCopies := pendingCopies s |}.

Definition set_videoRef (v : option HTMLVideoElement) (s : State) : State :=
  {| isActive := isActive s; topColor := topColor s; bottomColor := bottomColor s;
     copiedColor := copiedColor s; topPoint := topPoint s; bottomPoint := bottomPoint s;
     isDragging := isDragging s; videoRef := v; canvasRef := canvasRef s;
     streamRef := streamRef s; liveTracks := liveTracks s; interval := interval s;
     timeouts := timeouts s; now := now s; toasts := toasts s; console := console s;
     pendingMedia := pendingMedia s; pendingCopies := pendingCopies s |}.

Definition set_canvasRef (v : option HTMLCanvasElement) (s : State) : State :=
  {| isActive := isActive s; topColor := topColor s; bottomColor := bottomColor s;
     copiedColor := copiedColor s; topPoint := topPoint s; bottomPoint := bottomPoint s;
     isDragging := isDragging s; videoRef := videoRef s; canvasRef := v;
     streamRef := streamRef s; liveTracks := liveTracks s; interval := interval s;
     timeouts := timeouts s; now := now s; toasts := toasts s; console := console s;
     pendingMedia := pendingMedia s; pendingCopies := pendingCopies s |}.

Definition set_streamRef (v : option MediaStream) (s : State) : State :=
  {| isActive := isActive s; topColor := topColor s; bottomColor := bottomColor s;
     copiedColor := copiedColor s; topPoint := topPoint s; bottomPoint := bottomPoint s;
     isDragging := isDragging s; videoRef := videoRef s; canvasRef := canvasRef s;
     streamRef := v; liveTracks := liveTracks s; interval := interval s;
     timeouts := timeouts s; now := now s; toasts := toasts s; console := console s;
     pendingMedia := pendingMedia s; pendingCopies := pendingCopies s |}.

Definition set_liveTracks (v : gset nat) (s : State) : State :=
  {| isActive := isActive s; topColor := topColor s; bottomColor := bottomColor s;
     copiedColor := copiedColor s; topPoint := topPoint s; bottomPoint := bottomPoint s;
     isDragging := isDragging s; videoRef := videoRef s; canvasRef := canvasRef s;
     streamRef := streamRef s; liveTracks := v; interval := interval s;
     timeouts := timeouts s; now := now s; toasts := toasts s; console := console s;
     pendingMedia := pendingMedia s; pendingCopies := pendingCopies s |}.

Definition set_interval (v : option Captured) (s : State) : State :=
  {| isActive := isActive s; topColor := topColor s; bottomColor := bottomColor s;
     copiedColor := copiedColor s; topPoint := topPoint s; bottomPoint := bottomPoint s;
     isDragging := isDragging s; videoRef := videoRef s; canvasRef := canvasRef s;
     streamRef := streamRef s; liveTracks := liveTracks s; interval := v;
     timeouts := timeouts s; now := now s; toasts := toasts s; console := console s;
     pendingMedia := pendingMedia s; pendingCopies := pendingCopies s |}.

Definition set_timeouts (v : list Z) (s : State) : State :=
  {| isActive := isActive s; topColor := topColor s; bottomColor := bottomColor s;
     copiedColor := copiedColor s; topPoint := topPoint s; bottomPoint := bottomPoint s;
     isDragging := isDragging s; videoRef := videoRef s; canvasRef := canvasRef s;
     streamRef := streamRef s; liveTracks := liveTracks s; interval := interval s;
     timeouts := v; now := now s; toasts := toasts s; console := console s;
     pendingMedia := pendingMedia s; pendingCopies := pendingCopies s |}.

Definition set_now (v : Z) (s : State) : State :=
  {| isActive := isActive s; topColor := topColor s; bottomColor := bottomColor s;
     copiedColor := copiedColor s; topPoint := topPoint s; bottomPoint := bottomPoint s;
     isDragging := isDragging s; videoRef := videoRef s; canvasRef := canvasRef s;
     streamRef := streamRef s; liveTracks := liveTracks s; interval := interval s;
     timeouts := timeouts s; now := v; toasts := toasts s; console := console s;
     pendingMedia := pendingMedia s; pendingCopies := pendingCopies s |}.

Definition set_toasts (v : list Toast) (s : State) : State :=
  {| isActive := isActive s; topColor := topColor s; bottomColor := bottomColor s;
     copiedColor := copiedColor s; topPoint := topPoint s; bottomPoint := bottomPoint s;
     isDragging := isDragging s; videoRef := videoRef s; canvasRef := canvasRef s;
     streamRef := streamRef s; liveTracks := liveTracks s; interval := interval s;
     timeouts := timeouts s; now := now s; toasts := v; console := console s;
     pendingMedia := pendingMedia s; pendingCopies := pendingCopies s |}.

Definition set_console (v : list (string * string)) (s : State) : State :=
  {| isActive := isActive s; topColor := topColor s; bottomColor := bottomColor s;
     copiedColor := copiedColor s; topPoint := topPoint s; bottomPoint := bottomPoint s;
     isDragging := isDragging s; videoRef := videoRef s; canvasRef := canvasRef s;
     streamRef := streamRef s; liveTracks := liveTracks s; interval := interval s;
     timeouts := timeouts s; now := now s; toasts := toasts s; console := v;
     pendingMedia := pendingMedia s; pendingCopies := pendingCopies s |}.

Definition set_pendingMedia (v : nat) (s : State) : State :=
  {| isActive := isActive s; topColor := topColor s; bottomColor := bottomColor s;
     copiedColor := copiedColor s; topPoint := topPoint s; bottomPoint := bottomPoint s;
     isDragging := isDragging s; videoRef := videoRef s; canvasRef := canvasRef s;
     streamRef := streamRef s; liveTracks := liveTracks s; interval := interval s;
     timeouts := timeouts s; now := now s; toasts := toasts s; console := console s;
     pendingMedia := v; pendingCopies := pendingCopies s |}.

Definition set_pendingCopies (v : list string) (s : State) : State :=
  {| isActive := isActive s; topColor := topColor s; bottomColor := bottomColor s;
     copiedColor := copiedColor s; topPoint := topPoint s; bottomPoint := bottomPoint s;
     isDragging := isDragging s; videoRef := videoRef s; canvasRef := canvasRef s;
     streamRef := streamRef s; liveTracks := liveTracks s; interval := interval s;
     timeouts := timeouts s; now := now s; toasts := toasts s; console := console s;
     pendingMedia := pendingMedia s; pendingCopies := v |}.

(** [toast({...})] and [console.error(message, error)] *)
Definition toast (t : Toast) (s : State) : State :=
  set_toasts (toasts s ++ [t]) s.

Definition console_error (message error : string) (s : State) : State :=
  set_console (console s ++ [(message, error)]) s.

(** ** The frame sampler *)

(** How a call finishes: with a value, or by throwing. *)
Inductive Completion (A : Type) : Type :=
| Returns (value : A)
| Throws (error : string).
Arguments Returns {A} value.
Arguments Throws {A} error.

(** [canvas.width = video.videoWidth; canvas.height = video.videoHeight;
    ctx.drawImage(video, 0, 0); ctx.getImageData(x, y, 1, 1).data]:
    the arguments are converted to a 32-bit integer (a value that is not
    finite, or does not fit, is a TypeError), and a pixel off the canvas reads
    as transparent black. *)
Definition getImageData (video : HTMLVideoElement) (x y : number) : Completion Pixel :=
  match x, y with
  | Fin qx, Fin qy =>
      let sx := truncate qx in
      let sy := truncate qy in
      if (- 2 ^ 31 <=? sx) && (sx <? 2 ^ 31) && (- 2 ^ 31 <=? sy) && (sy <? 2 ^ 31)
      then Returns
             (if (0 <=? sx) && (sx <? videoWidth video) && (0 <=? sy) && (sy <? videoHeight video)
              then frame video sx sy
              else transparent_black)
      else Throws "TypeError"
  | _, _ => Throws "TypeError"
  end.

Definition getColorAtPoint (x y : number) (s : State) : Completion ColorData :=
  match videoRef s, canvasRef s with
  | Some video, Some canvas =>
      if negb (getContext2d canvas) then Returns black
      else
        match getImageData video x y with
        | Returns (r, g, b, _) =>
            Returns {| hex := rgbToHex (channel r) (channel g) (channel b);
                       rgb := {| r := channel r; g := channel g; b := channel b |} |}
        | Throws e => Throws e
        end
  | _, _ => Returns black
  end.

(** [Math.floor((percent / 100) * dimension)], which the source writes out
    for each of the four coordinates; in exact arithmetic here, on doubles
    in [Binary64.toPixel] below. *)
Definition toPixel (percent : number) (dimension : Z) : number :=
  Math_floor (mul (div percent (Fin 100)) (of_Z dimension)).

(** One run of the timer callback, as rendered with the values [c]; an
    exception escaping the callback leaves the state as it was. *)
Definition updateColors (c : Captured) (s : State) : State :=
  match videoRef s with
  | None => s
  | Some video =>
      if negb (captured_isActive c) then s
      else if (videoWidth video =? 0) || (videoHeight video =? 0) then s
      else
        let topX := toPixel (x (captured_topPoint c)) (videoWidth video) in
        let topY := toPixel (y (captured_topPoint c)) (videoHeight video) in
        let bottomX := toPixel (x (captured_bottomPoint c)) (videoWidth video) in
        let bottomY := toPixel (y (captured_bottomPoint c)) (videoHeight video) in
        match getColorAtPoint topX topY s with
        | Throws _ => s
        | Returns newTopColor =>
            match getColorAtPoint bottomX bottomY s with
            | Throws _ => s
            | Returns newBottomColor =>
                setBottomColor newBottomColor (setTopColor newTopColor s)
            end
        end
  end.

(** The pixel coordinate lies on a frame of the given size. *)
Definition onFrame (width height : Z) (px py : number) : Prop :=
  match px, py with
  | Fin qx, Fin qy =>
      (0 <= qx /\ qx < inject_Z width /\ 0 <= qy /\ qy < inject_Z height)%Q
  | _, _ => False
  end.

(** ** The point dragger *)

Definition handleMouseDown (point : PointName) (s : State) : State :=
  setIsDragging (Some point) s.

(** [Math.max(0, Math.min(100, v))] *)
Definition clamp (v : number) : number :=
  Math_max (Fin 0) (Math_min (Fin 100) v).

(** [container] is [containerRef.current], given by its bounding rectangle.
    The percentage is computed exactly; the program rounds each operation
    to a double, which moves the stored value by a rounding error but not
    across 0 or 100, nor past another stored value. *)
Definition handleMouseMove (e : MouseEvent) (container : option DOMRect) (s : State) : State :=
  match isDragging s, container with
  | None, _ | _, None => s
  | Some dragged, Some rect =>
      let x := mul (div (sub (Fin (clientX e)) (Fin (rect_left rect))) (Fin (rect_width rect)))
                   (Fin 100) in
      let y := mul (div (sub (Fin (clientY e)) (Fin (rect_top rect))) (Fin (rect_height rect)))
                   (Fin 100) in
      let clampedX := clamp x in
      let clampedY := clamp y in
      match dragged with
      | Top => setTopPoint {| x := clampedX; y := clampedY |} s
      | Bottom => setBottomPoint {| x := clampedX; y := clampedY |} s
      end
  end.

Definition handleMouseUp (s : State) : State :=
  setIsDragging None s.

(** ** Capture control *)

(** [stream.getTracks().forEach(track => track.stop())] *)
Definition stopTracks (stream : MediaStream) (live : gset nat) : gset nat :=
  fold_left (fun live track => live ∖ {[track]}) (getTracks stream) live.

(** What the platform does on settling [getUserMedia]: the tracks of a
    granted stream are live. *)
Definition getUserMedia (outcome : Settled MediaStream) (s : State) : State :=
  match outcome with
  | Fulfilled stream => set_liveTracks (liveTracks s ∪ list_to_set (getTracks stream)) s
  | Rejected _ => s
  end.

(** [startCamera], resumed with the outcome of [await getUserMedia(...)]. *)
Definition startCamera (outcome : Settled MediaStream) (s : State) : State :=
  match outcome with
  | Fulfilled stream =>
      let s := set_streamRef (Some stream) s in
      let s :=
        match videoRef s with
        | Some video =>
            set_videoRef
              (Some {| videoWidth := videoWidth video; videoHeight := videoHeight video;
                       frame := frame video; srcObject := Some stream; playing := true |}) s
        | None => s
        end in
      let s := setIsActive true s in
      toast {| title := "Camera Started";
               description := "Color sampling is now active";
               variant := None |} s
  | Rejected error =>
      let s := console_error "Error accessing camera:" error s in
      toast {| title := "Camera Error";
               description := "Unable to access camera. Please check permissions.";
               variant := Some "destructive" |} s
  end.

Definition stopCamera (s : State) : State :=
  let s :=
    match streamRef s with
    | Some stream => set_streamRef None (set_liveTracks (stopTracks stream (liveTracks s)) s)
    | None => s
    end in
  let s := setIsActive false s in
  toast {| title := "Camera Stopped";
           description := "Color sampling has been disabled";
           variant := None |} s.

(** ** Clipboard and feedback *)

(** [copyToClipboard(hex)], resumed with the outcome of
    [await navigator.clipboard.writeText(hex)]. *)
Definition copyToClipboard (hex : string) (outcome : Settled unit) (s : State) : State :=
  match outcome with
  | Fulfilled _ =>
      let s := setCopiedColor (Some hex) s in
      let s := set_timeouts (timeouts s ++ [now s + 2000]) s in
      toast {| title := "Copied!";
               description := append "Color " (append hex " copied to clipboard");
               variant := None |} s
  | Rejected error => console_error "Failed to copy:" error s
  end.

(** ** Rendering, timers and the event loop *)

(** The values a rendering of the component closes over. *)
Definition rendered (s : State) : Captured :=
  {| captured_isActive := isActive s;
     captured_topPoint := topPoint s;
     captured_bottomPoint := bottomPoint s |}.

(** After a render the sampling effect is cleaned up and run again:
    [clearInterval], then [setInterval(updateColors, 100)] unless
    [!isActive]. *)
Definition commit (s : State) : State :=
  set_interval (if isActive s then Some (rendered s) else None) s.

(** [dt] milliseconds pass; every timeout that has come due runs its
    callback [() => setCopiedColor(null)] and is gone. *)
Definition elapse (dt : N) (s : State) : State :=
  let t := now s + Z.of_N dt in
  let due := List.filter (fun d => d <=? t) (timeouts s) in
  let waiting := List.filter (fun d => negb (d <=? t)) (timeouts s) in
  fold_left (fun s _ => setCopiedColor None s) due (set_now t (set_timeouts waiting s)).

Inductive Event : Type :=
| ClickCamera                                     (* the Start/Stop button *)
| CameraSettles (outcome : Settled MediaStream)   (* getUserMedia settles *)
| MouseDown (point : PointName)                   (* on a marker *)
| MouseMove (e : MouseEvent) (container : option DOMRect)
| MouseUp
| ClickCopy (point : PointName)                   (* a swatch's copy button *)
| ClipboardSettles (outcome : Settled unit)       (* writeText settles *)
| Tick                                            (* the interval fires *)
| VideoFrame (width height : Z) (picture : Z -> Z -> Pixel)
| Elapse (dt : N).

(** What the page dispatches for an event.  The button runs
    [isActive ? stopCamera : startCamera]; markers and swatches are rendered
    only while active; the document listeners are attached only while a
    drag is under way. *)
Definition handle (ev : Event) (s : State) : State :=
  match ev with
  | ClickCamera =>
      if isActive s then stopCamera s
      else set_pendingMedia (S (pendingMedia s)) s
  | CameraSettles outcome =>
      match pendingMedia s with
      | O => s
      | S n => startCamera outcome (getUserMedia outcome (set_pendingMedia n s))
      end
  | MouseDown point =>
      if isActive s then handleMouseDown point s else s
  | MouseMove e container =>
      match isDragging s with
      | Some _ => handleMouseMove e container s
      | None => s
      end
  | MouseUp =>
      match isDragging s with
      | Some _ => handleMouseUp s
      | None => s
      end
  | ClickCopy point =>
      if isActive s
      then set_pendingCopies
             (pendingCopies s ++ [hex match point with
                                      | Top => topColor s
                                      | Bottom => bottomColor s
                                      end]) s
      else s
  | ClipboardSettles outcome =>
      match pendingCopies s with
      | [] => s
      | hex :: rest => copyToClipboard hex outcome (set_pendingCopies rest s)
      end
  | Tick =>
      match interval s with
      | Some c => updateColors c s
      | None => s
      end
  | VideoFrame width height picture =>
      match videoRef s with
      | Some video =>
          set_videoRef
            (Some {| videoWidth := width; videoHeight := height; frame := picture;
                     srcObject := srcObject video; playing := playing video |}) s
      | None => s
      end
  | Elapse dt => elapse dt s
  end.

Definition step (ev : Event) (s : State) : State := commit (handle ev s).

Definition run (evs : list Event) (s : State) : State :=
  fold_left (fun s ev => step ev s) evs s.

(** The component once mounted: the refs point at the video and the canvas. *)
Definition blankVideo : HTMLVideoElement :=
  {| videoWidth := 0; videoHeight := 0; frame := fun _ _ => transparent_black;
     srcObject := None; playing := false |}.

Definition mounted : State :=
  set_canvasRef (Some {| getContext2d := true |})
    (set_videoRef (Some blankVideo) initialState).

(** ** Vocabulary of the specification *)

(** The [d]-th lowercase hexadecimal digit. *)
Definition lowerHexDigit (d : Z) : ascii :=
  nth (Z.to_nat d) (list_ascii_of_string "0123456789abcdef") "0"%char.

(** A channel value written as two lowercase hexadecimal digits, the high
    one first. *)
Definition twoHexDigits (v : Z) : string :=
  String (lowerHexDigit (v / 16)) (String (lowerHexDigit (v mod 16)) EmptyString).

(** The value of a lowercase hexadecimal digit. *)
Definition hexDigitValue (c : ascii) : option Z :=
  let n := Z.of_nat (nat_of_ascii c) in
  if (48 <=? n) && (n <=? 57) then Some (n - 48)
  else if (97 <=? n) && (n <=? 102) then Some (n - 87)
  else None.

(** The number a string of lowercase hexadecimal digits denotes. *)
Fixpoint hexValue (acc : Z) (s : string) : option Z :=
  match s with
  | EmptyString => Some acc
  | String c rest =>
      match hexDigitValue c with
      | Some d => hexValue (16 * acc + d) rest
      | None => None
      end
  end.

(** The colour sample that belongs to a pixel. *)
Definition sampleOf (p : Pixel) : ColorData :=
  let '(r, g, b, _) := p in
  {| hex := rgbToHex (channel r) (channel g) (channel b);
     rgb := {| r := channel r; g := channel g; b := channel b |} |}.

(** Both coordinates of a sampling point are percentages. *)
Definition percentages (p : SamplingPoint) : Prop :=
  between 0 100 (x p) /\ between 0 100 (y p).

Definition pointOf (name : PointName) (s : State) : SamplingPoint :=
  match name with
  | Top => topPoint s
  | Bottom => bottomPoint s
  end.

(** The container a pointer move is measured against has an area. *)
Definition measurable (ev : Event) : Prop :=
  match ev with
  | MouseMove _ (Some rect) => (0 < rect_width rect /\ 0 < rect_height rect)%Q
  | _ => True
  end.

Definition isTick (ev : Event) : bool :=
  match ev with Tick => true | _ => false end.

(** The event hands the component a camera stream. *)
Definition grantsStream (ev : Event) : bool :=
  match ev with CameraSettles (Fulfilled _) => true | _ => false end.

(** The event is a press of the camera button or the answer to a camera
    request. *)
Definition cameraEvent (ev : Event) : bool :=
  match ev with
  | ClickCamera | CameraSettles _ => true
  | _ => false
  end.

(** Every track still running belongs to the stream the component holds. *)
Definition leakFree (s : State) : Prop :=
  forall track : nat,
    track ∈ liveTracks s ->
    exists stream, streamRef s = Some stream /\ In track (getTracks stream).

(** What holds of capture control as long as camera requests do not
    overlap: nothing leaks, at most one request is pending, an inactive
    component holds no stream, and a pending request means it is inactive. *)
Definition captureInvariant (s : State) : Prop :=
  leakFree s /\
  (pendingMedia s <= 1)%nat /\
  (isActive s = false -> streamRef s = None) /\
  (pendingMedia s = 1%nat -> isActive s = false).

(** The camera button is never pressed while a camera request is pending. *)
Fixpoint oneRequestAtATime (evs : list Event) (s : State) : Prop :=
  match evs with
  | [] => True
  | ev :: rest =>
      match ev with
      | ClickCamera => pendingMedia s = 0%nat
      | _ => True
      end /\ oneRequestAtATime rest (step ev s)
  end.

(** *** The conversion in binary64

    The program computes in binary64.  Here the conversion of [updateColors]
    is written on the machine's doubles, operation by operation as in the
    source, so that it evaluates to what the program computes; the exact
    arithmetic above is used only for properties that rounding cannot
    change. *)
Module Binary64.
Import Floats.PrimFloat Floats.FloatOps Floats.SpecFloat.

(** [Math.floor] of a double, as an integer; nothing for NaN and the
    infinities. *)
Definition floor (f : float) : option Z :=
  match Prim2SF f with
  | S754_zero _ => Some 0
  | S754_finite sign m e =>
      let n := if sign then Z.neg m else Z.pos m in
      Some (if 0 <=? e then n * 2 ^ e else n / 2 ^ (- e))
  | _ => None
  end.

Definition toPixel (percent dimension : float) : option Z :=
  floor (PrimFloat.mul (PrimFloat.div percent 100%float) dimension).

(** 50, 20, 80 and 100 percent of 1280 and 720. *)
Definition samples : list (option Z) :=
  [toPixel 50 1280; toPixel 20 720; toPixel 80 720; toPixel 100 1280; toPixel 100 720]%float.

(** The double that holds a non-negative integer below 2^53. *)
Definition ofZ (z : Z) : float := PrimFloat.of_uint63 (Uint63.of_Z z).

(** The pixel the program computes for a whole percentage is the integer
    quotient percent * dimension / 100 or one less, it is not negative, and
    it is below the dimension unless the percentage is 100, when it is the
    dimension. *)
Definition nearQuotient (percent dimension : Z) : bool :=
  match toPixel (ofZ percent) (ofZ dimension) with
  | Some z =>
      (percent * dimension / 100 - 1 <=? z) && (z <=? percent * dimension / 100)
      && (0 <=? z)
      && (if percent <? 100 then z <? dimension else z =? dimension)
  | None => false
  end.

Definition wholePercentages : list Z := map Z.of_nat (seq 0 101).

(** Widths and heights cameras and screens commonly have. *)
Definition commonSizes : list Z :=
  [270; 288; 320; 352; 360; 480; 540; 576; 600; 640; 720; 768; 800; 854; 960; 1024;
   1080; 1200; 1280; 1440; 1600; 1920; 2160; 2560; 3840; 4096; 4320; 7680].

(** Every dimension up to 256, and the common sizes. *)
Definition dimensions : list Z := map Z.of_nat (seq 1 256) ++ commonSizes.

End Binary64.

(** *** Sample data *)

Definition white : Z -> Z -> Pixel := fun _ _ => (xff, xff, xff, xff)%byte.

Definition camera1 : MediaStream := {| getTracks := [1%nat] |}.
Definition camera2 : MediaStream := {| getTracks := [2%nat] |}.

(** Capture running on a 1280x720 picture that is white all over. *)
Definition capturingWhite : State :=
  run [ClickCamera; CameraSettles (Fulfilled camera1); VideoFrame 1280 720 white] mounted.

(** A pointer far beyond the bottom right corner of a 640x360 container. *)
Definition farCorner : Event :=
  MouseMove {| clientX := 5000; clientY := 5000 |}
            (Some {| rect_left := 10; rect_top := 10; rect_width := 640; rect_height := 360 |}).

(** ** The rest of the component *)

(** [a + b] *)
Definition add (a b : number) : number :=
  match a, b with
  | NaN, _ | _, NaN => NaN
  | Fin p, Fin q => Fin (p + q)
  | PosInf, NegInf | NegInf, PosInf => NaN
  | PosInf, _ | _, PosInf => PosInf
  | NegInf, _ | _, NegInf => NegInf
  end.

(** Where the overlay puts the two labels: [Math.max(0, topPoint.y - 8)] and
    [Math.min(92, bottomPoint.y + 8)], in percent from the top. *)
Definition topLabelTop (s : State) : number :=
  Math_max (Fin 0) (sub (y (topPoint s)) (Fin 8)).

Definition bottomLabelTop (s : State) : number :=
  Math_min (Fin 92) (add (y (bottomPoint s)) (Fin 8)).

(** The earlier variant of the component samples two fixed positions: the
    middle of the picture at 20 and at 80 percent of its height.  Its
    [getColorAtPoint] is the one above. *)
Module FixedPoints.

Definition updateColors (isActive : bool) (s : State) : State :=
  match videoRef s with
  | None => s
  | Some video =>
      if negb isActive then s
      else if (videoWidth video =? 0) || (videoHeight video =? 0) then s
      else
        let centerX := Math_floor (div (of_Z (videoWidth video)) (Fin 2)) in
        let topY := Math_floor (mul (of_Z (videoHeight video)) (Fin (2 # 10))) in
        let bottomY := Math_floor (mul (of_Z (videoHeight video)) (Fin (8 # 10))) in
        match getColorAtPoint centerX topY s with
        | Throws _ => s
        | Returns newTopColor =>
            match getColorAtPoint centerX bottomY s with
            | Throws _ => s
            | Returns newBottomColor =>
                setBottomColor newBottomColor (setTopColor newTopColor s)
            end
        end
  end.

End FixedPoints.

(** *** More vocabulary *)

(** The integer pixel a percentage of a dimension falls on. *)
Definition pixelOf (percent : number) (dimension : Z) : Z :=
  match percent with
  | Fin q => Qfloor (q / 100 * inject_Z dimension)
  | _ => 0
  end.

(** What a one-pixel read at integer coordinates yields: the pixel of the
    picture, or transparent black off the picture. *)
Definition pictureAt (video : HTMLVideoElement) (px py : Z) : Pixel :=
  if (0 <=? px) && (px <? videoWidth video) && (0 <=? py) && (py <? videoHeight video)
  then frame video px py
  else transparent_black.


(** The channels of a sample are bytes and its hex string is theirs. *)
Definition wellFormed (c : ColorData) : Prop :=
  0 <= r (rgb c) <= 255 /\ 0 <= g (rgb c) <= 255 /\ 0 <= b (rgb c) <= 255 /\
  hex c = rgbToHex (r (rgb c)) (g (rgb c)) (b (rgb c)).

Definition colorOf (name : PointName) (s : State) : ColorData :=
  match name with
  | Top => topColor s
  | Bottom => bottomColor s
  end.

Definition other (name : PointName) : PointName :=
  match name with
  | Top => Bottom
  | Bottom => Top
  end.

(** The percentage of a pointer coordinate before clamping, as
    [handleMouseMove] computes it. *)
Definition rawPercent (client origin extent : Q) : number :=
  mul (div (sub (Fin client) (Fin origin)) (Fin extent)) (Fin 100).

(** The point a pointer position stands for: its place within the
    container, in percent, brought back to the nearest edge when outside. *)
Definition relativePercent (client origin extent : Q) : Q :=
  if Qle_bool client origin then 0
  else if Qle_bool (origin + extent) client then 100
  else (client - origin) / extent * 100.

(** A stored coordinate is pinned by the pointer: 0 when the pointer is at
    or before the container's near edge, 100 when it is at or beyond the far
    edge, and a percentage in between. *)
Definition pinned (client origin extent q : Q) : Prop :=
  if Qle_bool client origin then (q == 0)%Q
  else if Qle_bool (origin + extent) client then (q == 100)%Q
  else (0 <= q /\ q <= 100)%Q.


Definition isMouseMove (ev : Event) : bool :=
  match ev with MouseMove _ _ => true | _ => false end.

Definition isMouseDown (ev : Event) : bool :=
  match ev with MouseDown _ => true | _ => false end.

(** The event is a press of a copy button or the answer to a clipboard
    write. *)
Definition clipboardEvent (ev : Event) : bool :=
  match ev with
  | ClickCopy _ | ClipboardSettles _ => true
  | _ => false
  end.

(** The event is the successful answer to a clipboard write. *)
Definition copySucceeds (ev : Event) : bool :=
  match ev with
  | ClipboardSettles (Fulfilled _) => true
  | _ => false
  end.

(** Every pending timeout is due within 2000 ms, and a raised flag has a
    timeout pending. *)
Definition timersInvariant (s : State) : Prop :=
  Forall (fun due => due <= now s + 2000) (timeouts s) /\
  (copiedColor s <> None -> timeouts s <> []).

(** The state reached by a successful copy of [hex] 1500 ms after a copy of
    another value. *)
Definition copiedTwice : State :=
  copyToClipboard "#bbbbbb" (Fulfilled tt)
    (elapse 1500 (copyToClipboard "#aaaaaa" (Fulfilled tt) capturingWhite)).

(** * Properties *)

(** Closes a goal saying that some fields came through a handler as they
    were. *)
Ltac untouched := repeat split; cbn; try reflexivity; congruence.

(** ** Percentages and pixels *)

Lemma toPixel_Fin (q : Q) (dimension : Z) :
  toPixel (Fin q) dimension = of_Z (Qfloor (q / 100 * inject_Z dimension)).
Proof. reflexivity. Qed.

Lemma toPixel_integer (p dimension : Z) :
  toPixel (of_Z p) dimension = of_Z (p * dimension / 100).
Proof.
  unfold of_Z at 1. rewrite toPixel_Fin. f_equal.
  rewrite (Zdiv_Qdiv (p * dimension) 100).
  apply Qfloor_comp. rewrite inject_Z_mult. field.
Qed.

Lemma toPixel_full (dimension : Z) :
  toPixel (Fin 100) dimension = of_Z dimension.
Proof.
  change (Fin 100) with (of_Z 100). rewrite toPixel_integer.
  f_equal. rewrite Z.mul_comm. apply Z.div_mul. discriminate.
Qed.


Lemma onFrame_of_Z (width height px py : Z) :
  onFrame width height (of_Z px) (of_Z py) <->
  0 <= px < width /\ 0 <= py < height.
Proof.
  unfold onFrame, of_Z. change 0%Q with (inject_Z 0).
  rewrite <- !Zle_Qle, <- !Zlt_Qlt. tauto.
Qed.

(** On the numbers used below, binary64 arithmetic gives what the exact
    arithmetic gives. *)
Remark binary64_agrees :
  Binary64.samples = [Some 640; Some 144; Some 576; Some 1280; Some 720] /\
  [toPixel (Fin 50) 1280; toPixel (Fin 20) 720; toPixel (Fin 80) 720;
   toPixel (Fin 100) 1280; toPixel (Fin 100) 720]
  = [of_Z 640; of_Z 144; of_Z 576; of_Z 1280; of_Z 720].
Proof. split; vm_compute; reflexivity. Qed.


(** C1: at 100 percent the computed pixel coordinate equals the frame
    dimension, so it is not on the frame.  A drag past the bottom right
    corner stores the point (100, 100); the next tick then reads outside a
    1280x720 picture and reports black although every pixel is white. *)
Theorem full_percent_is_off_frame :
  (forall width height : Z,
      toPixel (Fin 100) width = of_Z width /\
      toPixel (Fin 100) height = of_Z height /\
      ~ onFrame width height (toPixel (Fin 100) width) (toPixel (Fin 100) height)) /\
  (let s := run [MouseDown Top; farCorner; MouseUp] capturingWhite in
   topPoint s = {| x := Fin 100; y := Fin 100 |} /\
   topColor (step Tick s) = black /\
   bottomColor (step Tick s) = sampleOf (white 640 576)).
Proof.
  split.
  - intros width height. rewrite !toPixel_full. split; [reflexivity|split; [reflexivity|]].
    rewrite onFrame_of_Z. lia.
  - vm_compute. repeat split; reflexivity.
Qed.

(** ** Hexadecimal colour strings *)

Lemma padded_channel_table :
  forallb (fun n => String.eqb (padStart 2 "0" (toString16 (Z.of_nat n)))
                               (twoHexDigits (Z.of_nat n)))
          (seq 0 256) = true.
Proof. vm_compute. reflexivity. Qed.

(** On a channel value [toString(16).padStart(2, '0')] is the two-digit
    form. *)
Lemma padded_channel (v : Z) :
  0 <= v <= 255 -> padStart 2 "0" (toString16 v) = twoHexDigits v.
Proof.
  intros Hv.
  pose proof (proj1 (forallb_forall _ _) padded_channel_table (Z.to_nat v)) as H.
  cbv beta in H. rewrite Z2Nat.id in H by lia.
  apply String.eqb_eq, H, in_seq. lia.
Qed.

Lemma hexDigitValue_lowerHexDigit (d : Z) :
  0 <= d < 16 -> hexDigitValue (lowerHexDigit d) = Some d.
Proof.
  intros Hd.
  assert (Hcases : d = 0 \/ d = 1 \/ d = 2 \/ d = 3 \/ d = 4 \/ d = 5 \/ d = 6 \/ d = 7 \/
                   d = 8 \/ d = 9 \/ d = 10 \/ d = 11 \/ d = 12 \/ d = 13 \/ d = 14 \/ d = 15)
    by lia.
  repeat (destruct Hcases as [-> | Hcases]; [reflexivity|]).
  subst d. reflexivity.
Qed.

Lemma hexValue_twoHexDigits (acc v : Z) (rest : string) :
  0 <= v <= 255 ->
  hexValue acc (append (twoHexDigits v) rest) = hexValue (256 * acc + v) rest.
Proof.
  intros Hv. unfold twoHexDigits. cbv beta iota fix delta [append]. cbn [hexValue].
  rewrite !hexDigitValue_lowerHexDigit.
  - f_equal. pose proof (Z.div_mod v 16). lia.
  - apply Z.mod_pos_bound. lia.
  - split; [apply Z.div_pos; lia | apply Z.div_lt_upper_bound; lia].
Qed.

(** C2: for a channel value v in [0,255] the conversion used by rgbToHex
    yields exactly two lowercase hexadecimal digits, the high digit first
    and a zero in front of a value below 16 (5 gives "05", 255 gives "ff");
    rgbToHex joins the three pairs, after a '#', into six hexadecimal digits
    that denote red, green and blue in this order. *)
Theorem rgbToHex_zero_padded_pairs (r g b : Z) :
  0 <= r <= 255 -> 0 <= g <= 255 -> 0 <= b <= 255 ->
  let pair := fun v => padStart 2 "0" (toString16 v) in
  Forall (fun v => pair v = twoHexDigits v /\
                   String.length (pair v) = 2%nat /\
                   hexValue 0 (pair v) = Some v) [r; g; b] /\
  rgbToHex r g b = String "#" (append (pair r) (append (pair g) (pair b))) /\
  String.length (rgbToHex r g b) = 7%nat /\
  hexValue 0 (substring 1 6 (rgbToHex r g b)) = Some (65536 * r + 256 * g + b) /\
  pair 5 = "05" /\ pair 255 = "ff".
Proof.
  intros Hr Hg Hb pair.
  assert (Hpair : forall v, 0 <= v <= 255 ->
            pair v = twoHexDigits v /\ String.length (pair v) = 2%nat /\
            hexValue 0 (pair v) = Some v).
  { intros v Hv. unfold pair. rewrite (padded_channel v Hv).
    split; [reflexivity|split; [reflexivity|]].
    pose proof (hexValue_twoHexDigits 0 v EmptyString Hv) as H.
    cbn [hexValue] in H. replace (256 * 0 + v) with v in H by lia.
    rewrite <- H. unfold twoHexDigits. reflexivity. }
  assert (Hhex : rgbToHex r g b
                 = String "#" (append (twoHexDigits r)
                                 (append (twoHexDigits g)
                                    (append (twoHexDigits b) EmptyString)))).
  { unfold rgbToHex, join. cbn [map fold_right].
    rewrite !padded_channel by assumption. reflexivity. }
  split; [|split; [|split; [|split; [|split]]]].
  - repeat constructor; apply Hpair; assumption.
  - rewrite Hhex. unfold pair. rewrite !padded_channel by assumption. reflexivity.
  - rewrite Hhex. reflexivity.
  - rewrite Hhex.
    change (substring 1 6 _)
      with (append (twoHexDigits r)
              (append (twoHexDigits g) (append (twoHexDigits b) EmptyString))).
    rewrite !hexValue_twoHexDigits by assumption. cbn [hexValue]. f_equal. lia.
  - reflexivity.
  - reflexivity.
Qed.

Lemma rgbToHex_zero_padded_pairs_witness :
  rgbToHex 5 255 16 = "#05ff10" /\
  hexValue 0 (substring 1 6 (rgbToHex 5 255 16)) = Some (65536 * 5 + 256 * 255 + 16).
Proof.
  pose proof (rgbToHex_zero_padded_pairs 5 255 16 ltac:(lia) ltac:(lia) ltac:(lia)) as H.
  cbv zeta in H. destruct H as (_ & H1 & _ & H2 & _).
  split; [rewrite H1; reflexivity | exact H2].
Defined.

(** ** The black fallback *)

(** Running the callback of every due timeout amounts to running it once. *)
Lemma clear_all (due : list Z) (s0 : State) :
  fold_left (fun s _ => setCopiedColor None s) due s0
  = match due with
    | [] => s0
    | _ :: _ => setCopiedColor None s0
    end.
Proof.
  revert s0. induction due as [|d due IH]; intros s0; [reflexivity|].
  cbn [fold_left]. rewrite IH. destruct due; reflexivity.
Qed.

Lemma step_keeps_colors (ev : Event) (s : State) :
  isTick ev = false ->
  topColor (step ev s) = topColor s /\ bottomColor (step ev s) = bottomColor s.
Proof.
  intros Hev. unfold step, commit. cbn [topColor bottomColor set_interval].
  destruct ev; try discriminate Hev; cbn [handle].
  - destruct (isActive s); [unfold stopCamera; destruct (streamRef s)|]; split; reflexivity.
  - destruct (pendingMedia s); [split; reflexivity|].
    destruct outcome; cbn; [destruct (videoRef s)|]; split; reflexivity.
  - destruct (isActive s); split; reflexivity.
  - unfold handleMouseMove.
    destruct (isDragging s) as [[]|], container; split; reflexivity.
  - destruct (isDragging s); split; reflexivity.
  - destruct (isActive s); split; reflexivity.
  - destruct (pendingCopies s); [split; reflexivity|].
    destruct outcome; split; reflexivity.
  - destruct (videoRef s); split; reflexivity.
  - unfold elapse. rewrite clear_all.
    destruct (List.filter _ _); split; reflexivity.
Qed.

Lemma run_keeps_colors (evs : list Event) (s : State) :
  Forall (fun ev => isTick ev = false) evs ->
  topColor (run evs s) = topColor s /\ bottomColor (run evs s) = bottomColor s.
Proof.
  intros Hevs. revert s. induction Hevs as [|ev evs Hev _ IH]; intros s.
  - split; reflexivity.
  - cbn [run fold_left]. destruct (IH (step ev s)) as [H1 H2].
    destruct (step_keeps_colors ev s Hev) as [H3 H4].
    unfold run in H1, H2. rewrite H1, H2. split; assumption.
Qed.

(** C10: when the video element, the canvas element or the 2D context is
    missing, getColorAtPoint returns (it does not throw) the black sample
    with hex "#000000" and rgb (0,0,0).  Both colour samples start as that
    sample and keep it as long as no tick has run; the points start at
    (50,20) and (50,80). *)
Theorem sampling_falls_back_to_black (x y : number) (s : State) (evs : list Event) :
  videoRef s = None \/ canvasRef s = None \/
    canvasRef s = Some {| getContext2d := false |} ->
  Forall (fun ev => isTick ev = false) evs ->
  getColorAtPoint x y s = Returns black /\
  black = {| hex := "#000000"; rgb := {| r := 0; g := 0; b := 0 |} |} /\
  (topColor initialState = black /\ bottomColor initialState = black) /\
  (topColor (run evs mounted) = black /\ bottomColor (run evs mounted) = black) /\
  topPoint initialState = {| x := Fin 50; y := Fin 20 |} /\
  bottomPoint initialState = {| x := Fin 50; y := Fin 80 |}.
Proof.
  intros Hmissing Hevs.
  split; [|split; [reflexivity|split; [split; reflexivity|split; [|split; reflexivity]]]].
  - unfold getColorAtPoint.
    destruct Hmissing as [-> | [-> | ->]]; [reflexivity| |].
    + destruct (videoRef s); reflexivity.
    + destruct (videoRef s); reflexivity.
  - exact (run_keeps_colors evs mounted Hevs).
Qed.

Lemma sampling_falls_back_to_black_witness :
  getColorAtPoint (of_Z 640) (of_Z 144)
    (set_canvasRef (Some {| getContext2d := false |}) capturingWhite) = Returns black /\
  topColor (run [ClickCamera; CameraSettles (Fulfilled camera1);
                 VideoFrame 1280 720 white; MouseDown Top; farCorner] mounted) = black.
Proof.
  pose proof (sampling_falls_back_to_black (of_Z 640) (of_Z 144)
                (set_canvasRef (Some {| getContext2d := false |}) capturingWhite)
                [ClickCamera; CameraSettles (Fulfilled camera1);
                 VideoFrame 1280 720 white; MouseDown Top; farCorner]
                (or_intror (or_intror eq_refl))
                ltac:(repeat constructor)) as H.
  destruct H as (H1 & _ & _ & (H2 & _) & _).
  split; [exact H1 | exact H2].
Defined.

(** ** The point dragger *)

Lemma clamp_between (v : number) :
  is_NaN v = false -> between 0 100 (clamp v).
Proof.
  destruct v as [q| | |]; intros Hv; try discriminate Hv; cbn.
  - destruct (Qle_bool 100 q) eqn:Hhi; cbn.
    + split; [discriminate | apply Qle_refl].
    + assert (Hq : (q < 100)%Q).
      { apply Qnot_le_lt. intros Hle. apply Qle_bool_iff in Hle. congruence. }
      destruct (Qle_bool 0 q) eqn:Hlo; cbn.
      * apply Qle_bool_iff in Hlo. split; [exact Hlo | apply Qlt_le_weak, Hq].
      * split; [apply Qle_refl | discriminate].
  - split; [discriminate | apply Qle_refl].
  - split; [apply Qle_refl | discriminate].
Qed.

(** Measured against a container with an area, the raw percentage is a
    finite number. *)
Lemma raw_percentage_finite (client origin extent : Q) :
  (0 < extent)%Q ->
  is_NaN (mul (div (sub (Fin client) (Fin origin)) (Fin extent)) (Fin 100)) = false.
Proof.
  intros Hext. cbn [sub div].
  assert (H : (extent ?= 0)%Q = Gt) by (apply Qgt_alt; exact Hext).
  rewrite H. reflexivity.
Qed.

Lemma handleMouseMove_writes_percentages
    (e : MouseEvent) (rect : DOMRect) (dragged : PointName) (s : State) :
  (0 < rect_width rect)%Q -> (0 < rect_height rect)%Q ->
  isDragging s = Some dragged ->
  percentages (pointOf dragged (handleMouseMove e (Some rect) s)).
Proof.
  intros Hw Hh Hdrag. unfold handleMouseMove. rewrite Hdrag.
  destruct dragged; cbn [pointOf topPoint bottomPoint setTopPoint setBottomPoint];
    split; cbn [x y]; apply clamp_between, raw_percentage_finite; assumption.
Qed.

Lemma step_keeps_percentages (ev : Event) (s : State) :
  measurable ev ->
  percentages (topPoint s) -> percentages (bottomPoint s) ->
  percentages (topPoint (step ev s)) /\ percentages (bottomPoint (step ev s)).
Proof.
  intros Hev Htop Hbottom. unfold step, commit.
  cbn [topPoint bottomPoint set_interval].
  destruct ev; cbn [handle].
  - destruct (isActive s); [unfold stopCamera; destruct (streamRef s)|]; split; assumption.
  - destruct (pendingMedia s); [split; assumption|].
    destruct outcome; cbn; [destruct (videoRef s)|]; split; assumption.
  - destruct (isActive s); split; assumption.
  - destruct (isDragging s) as [dragged|] eqn:Hdrag; [|split; assumption].
    destruct container as [rect|]; [|unfold handleMouseMove; rewrite Hdrag; split; assumption].
    destruct Hev as [Hw Hh].
    pose proof (handleMouseMove_writes_percentages e rect dragged s Hw Hh Hdrag) as Hnew.
    unfold handleMouseMove in *. rewrite Hdrag in *.
    destruct dragged; cbn in Hnew |- *; split; assumption.
  - destruct (isDragging s); split; assumption.
  - destruct (isActive s); split; assumption.
  - destruct (pendingCopies s); [split; assumption|].
    destruct outcome; split; assumption.
  - destruct (interval s); [|split; assumption].
    unfold updateColors. repeat case_match; split; assumption.
  - destruct (videoRef s); split; assumption.
  - unfold elapse. rewrite clear_all.
    destruct (List.filter _ _); split; assumption.
Qed.

(** C3: a pointer move during a drag, measured against a container with an
    area, writes a point whose x and y both lie in [0,100], wherever the
    pointer is; and after any sequence of events both stored points lie in
    [0,100] on both axes. *)
Theorem drag_keeps_percentages
    (e : MouseEvent) (rect : DOMRect) (dragged : PointName) (s : State)
    (evs : list Event) :
  (0 < rect_width rect)%Q -> (0 < rect_height rect)%Q ->
  isDragging s = Some dragged ->
  Forall measurable evs ->
  percentages (pointOf dragged (handleMouseMove e (Some rect) s)) /\
  percentages (topPoint (run evs mounted)) /\
  percentages (bottomPoint (run evs mounted)).
Proof.
  intros Hw Hh Hdrag Hevs. split.
  - apply handleMouseMove_writes_percentages; assumption.
  - clear - Hevs.
    assert (Hinit : percentages (topPoint mounted) /\ percentages (bottomPoint mounted)).
    { cbn. unfold percentages. cbn. repeat split; discriminate. }
    revert Hinit. generalize mounted as s0.
    induction Hevs as [|ev evs Hev _ IH]; intros s0 [Htop Hbottom].
    + split; assumption.
    + cbn [run fold_left]. apply IH.
      apply step_keeps_percentages; assumption.
Qed.

Lemma drag_keeps_percentages_witness :
  percentages
    (pointOf Top
       (handleMouseMove
          {| clientX := 5000; clientY := 5000 |}
          (Some {| rect_left := 10; rect_top := 10; rect_width := 640; rect_height := 360 |})
          (handleMouseDown Top capturingWhite))) /\
  percentages (topPoint (run [ClickCamera; CameraSettles (Fulfilled camera1);
                              MouseDown Top; farCorner] mounted)).
Proof.
  pose proof (drag_keeps_percentages
                {| clientX := 5000; clientY := 5000 |}
                {| rect_left := 10; rect_top := 10; rect_width := 640; rect_height := 360 |}
                Top (handleMouseDown Top capturingWhite)
                [ClickCamera; CameraSettles (Fulfilled camera1); MouseDown Top; farCorner]
                eq_refl eq_refl eq_refl
                ltac:(repeat constructor)) as [H1 [H2 _]].
  split; [exact H1 | exact H2].
Defined.

(** A container without any area is another matter: with the pointer on its
    left edge the raw percentage is 0/0, and the clamp passes NaN through. *)
Remark collapsed_container_stores_NaN :
  topPoint
    (handleMouseMove
       {| clientX := 0; clientY := 0 |}
       (Some {| rect_left := 0; rect_top := 0; rect_width := 0; rect_height := 0 |})
       (handleMouseDown Top capturingWhite))
  = {| x := NaN; y := NaN |}.
Proof. reflexivity. Qed.

(** ** Capture control *)

Lemma state_eta (s : State) :
  {| isActive := isActive s; topColor := topColor s; bottomColor := bottomColor s;
     copiedColor := copiedColor s; topPoint := topPoint s; bottomPoint := bottomPoint s;
     isDragging := isDragging s; videoRef := videoRef s; canvasRef := canvasRef s;
     streamRef := streamRef s; liveTracks := liveTracks s; interval := interval s;
     timeouts := timeouts s; now := now s; toasts := toasts s; console := console s;
     pendingMedia := pendingMedia s; pendingCopies := pendingCopies s |} = s.
Proof. destruct s; reflexivity. Qed.

(** C4: when the camera request is rejected, startCamera raises the
    destructive "Camera Error" toast and logs the error, and changes nothing
    else: the active flag is still false, the stream handle still null, the
    sampling timer is not armed and a tick does nothing. *)
Theorem startCamera_rejected_changes_nothing (error : string) (s : State) :
  isActive s = false -> streamRef s = None ->
  let s' := startCamera (Rejected error) (getUserMedia (Rejected error) s) in
  toasts s' = (toasts s ++
               [{| title := "Camera Error";
                   description := "Unable to access camera. Please check permissions.";
                   variant := Some "destructive" |}])%list /\
  console s' = (console s ++ [("Error accessing camera:", error)])%list /\
  isActive s' = false /\
  streamRef s' = None /\
  set_console (console s) (set_toasts (toasts s) s') = s /\
  interval (commit s') = None /\
  handle Tick (commit s') = commit s'.
Proof.
  intros Hactive Hstream s'. subst s'.
  split; [reflexivity|]. split; [reflexivity|].
  split; [exact Hactive|]. split; [exact Hstream|].
  split; [exact (state_eta s)|].
  unfold commit. cbn [handle interval set_interval].
  change (isActive (startCamera _ _)) with (isActive s).
  rewrite Hactive. split; reflexivity.
Qed.

Lemma startCamera_rejected_changes_nothing_witness :
  let s' := startCamera (Rejected "NotAllowedError")
              (getUserMedia (Rejected "NotAllowedError") (step ClickCamera mounted)) in
  isActive s' = false /\ streamRef s' = None /\ interval (commit s') = None /\
  length (toasts s') = 1%nat.
Proof.
  pose proof (startCamera_rejected_changes_nothing "NotAllowedError"
                (step ClickCamera mounted) eq_refl eq_refl) as H.
  cbv zeta in H. destruct H as (H1 & _ & H2 & H3 & _ & H4 & _).
  cbv zeta. split; [exact H2|split; [exact H3|split; [exact H4|]]].
  rewrite H1. reflexivity.
Defined.

(** ** Clipboard and feedback *)

(** C8: when the clipboard write is rejected, copyToClipboard logs the error
    and changes nothing else: the copied flag keeps its value, no timeout is
    scheduled and no toast is raised. *)
Theorem copyToClipboard_rejected_changes_nothing (hex error : string) (s : State) :
  let s' := copyToClipboard hex (Rejected error) s in
  console s' = (console s ++ [("Failed to copy:", error)])%list /\
  copiedColor s' = copiedColor s /\
  timeouts s' = timeouts s /\
  toasts s' = toasts s /\
  set_console (console s) s' = s.
Proof.
  repeat split. exact (state_eta s).
Qed.

(** ** Stopping *)

Lemma elem_of_stopTracks (stream : MediaStream) (live : gset nat) (track : nat) :
  track ∈ stopTracks stream live <-> track ∈ live /\ ~ In track (getTracks stream).
Proof.
  unfold stopTracks. revert live.
  induction (getTracks stream) as [|t ts IH]; intros live; cbn [fold_left In].
  - tauto.
  - rewrite IH, elem_of_difference, elem_of_singleton. intuition congruence.
Qed.

(** Events that are not about the camera leave capture control alone. *)
Lemma step_keeps_capture (ev : Event) (s : State) :
  cameraEvent ev = false ->
  isActive (step ev s) = isActive s /\
  streamRef (step ev s) = streamRef s /\
  liveTracks (step ev s) = liveTracks s /\
  pendingMedia (step ev s) = pendingMedia s.
Proof.
  intros Hev. unfold step, commit.
  cbn [isActive streamRef liveTracks pendingMedia set_interval].
  destruct ev; try discriminate Hev; cbn [handle].
  - destruct (isActive s) eqn:Hactive; untouched.
  - unfold handleMouseMove.
    destruct (isDragging s) as [[]|], container; untouched.
  - destruct (isDragging s); untouched.
  - destruct (isActive s) eqn:Hactive; untouched.
  - destruct (pendingCopies s); [untouched|].
    destruct outcome; untouched.
  - destruct (interval s); [|untouched].
    unfold updateColors. repeat case_match; untouched.
  - destruct (videoRef s); untouched.
  - unfold elapse. rewrite clear_all.
    destruct (List.filter _ _); untouched.
Qed.

(** Once stopped, the component stays stopped, with the timer cleared and
    the samples as they are, until a camera stream is granted. *)
Lemma step_stays_stopped (ev : Event) (s : State) :
  grantsStream ev = false ->
  isActive s = false -> interval s = None ->
  isActive (step ev s) = false /\ interval (step ev s) = None /\
  topColor (step ev s) = topColor s /\ bottomColor (step ev s) = bottomColor s.
Proof.
  intros Hev Hactive Htimer.
  assert (Hstill : isActive (step ev s) = false).
  { destruct (cameraEvent ev) eqn:Hcam.
    - destruct ev; try discriminate Hcam; unfold step, commit;
        cbn [isActive set_interval handle].
      + rewrite Hactive. exact Hactive.
      + destruct (pendingMedia s); [exact Hactive|].
        destruct outcome; [discriminate Hev | exact Hactive].
    - destruct (step_keeps_capture ev s Hcam) as [H _]. congruence. }
  split; [exact Hstill|]. split.
  - unfold step, commit in *. cbn [isActive interval set_interval] in *.
    rewrite Hstill. reflexivity.
  - destruct (isTick ev) eqn:Htick.
    + destruct ev; try discriminate Htick.
      unfold step, commit. cbn [handle topColor bottomColor set_interval].
      rewrite Htimer. split; reflexivity.
    + apply step_keeps_colors, Htick.
Qed.

(** C6: after stopCamera and the render that follows it, the sampling timer
    is cleared, every track of the stream that was held is stopped, the
    stream handle is null and the active flag is false; a tick, were one
    invoked, changes nothing, and whatever happens next short of a camera
    stream being granted, topColor and bottomColor keep their values. *)
Theorem stopCamera_ends_sampling (s : State) (evs : list Event) :
  Forall (fun ev => grantsStream ev = false) evs ->
  let s' := commit (stopCamera s) in
  interval s' = None /\
  match streamRef s with
  | Some stream => Forall (fun track => track ∉ liveTracks s') (getTracks stream)
  | None => True
  end /\
  streamRef s' = None /\
  isActive s' = false /\
  handle Tick s' = s' /\
  updateColors (rendered s') s' = s' /\
  topColor (run evs s') = topColor s' /\
  bottomColor (run evs s') = bottomColor s'.
Proof.
  intros Hevs s'.
  assert (Hactive : isActive s' = false) by reflexivity.
  assert (Htimer : interval s' = None) by reflexivity.
  split; [exact Htimer|]. split.
  { subst s'. unfold stopCamera. destruct (streamRef s) as [stream|]; [|exact I].
    cbn. apply List.Forall_forall. intros track Hin Hlive.
    apply elem_of_stopTracks in Hlive. tauto. }
  split.
  { subst s'. unfold stopCamera.
    destruct (streamRef s) eqn:Hstream; [reflexivity | exact Hstream]. }
  split; [exact Hactive|].
  split. { cbn [handle]. rewrite Htimer. reflexivity. }
  split. { unfold updateColors. destruct (videoRef s'); reflexivity. }
  clearbody s'. revert s' Hactive Htimer.
  induction Hevs as [|ev evs Hev _ IH]; intros s' Hactive Htimer.
  - split; reflexivity.
  - cbn [run fold_left].
    destruct (step_stays_stopped ev s' Hev Hactive Htimer) as (H1 & H2 & H3 & H4).
    destruct (IH (step ev s') H1 H2) as [H5 H6].
    unfold run in H5, H6. rewrite H5, H6. split; assumption.
Qed.

Lemma stopCamera_ends_sampling_witness :
  let s' := commit (stopCamera capturingWhite) in
  interval s' = None /\
  (1%nat ∉ liveTracks s') /\
  topColor (run [Tick; VideoFrame 1280 720 white; Tick; Elapse 100; Tick] s') = topColor s'.
Proof.
  pose proof (stopCamera_ends_sampling capturingWhite
                [Tick; VideoFrame 1280 720 white; Tick; Elapse 100; Tick]
                ltac:(repeat constructor)) as H.
  cbv zeta in H. destruct H as (H1 & H2 & _ & _ & _ & _ & H3 & _).
  cbv zeta. split; [exact H1|split; [|exact H3]].
  exact (Forall_inv H2).
Defined.

(** ** Starting twice *)

Lemma step_keeps_captureInvariant (ev : Event) (s : State) :
  match ev with
  | ClickCamera => pendingMedia s = 0%nat
  | _ => True
  end ->
  captureInvariant s -> captureInvariant (step ev s).
Proof.
  intros Hev (Hleak & Hone & Hidle & Hwait).
  destruct (cameraEvent ev) eqn:Hcam.
  - destruct ev; try discriminate Hcam; unfold step, commit, captureInvariant;
      cbn [isActive streamRef liveTracks pendingMedia set_interval handle].
    + (* the button *)
      destruct (isActive s) eqn:Hactive.
      * (* stops: nothing is left running *)
        split.
        { intros track. unfold stopCamera.
          destruct (streamRef s) as [stream|] eqn:Hstream; cbn; intros Hlive.
          - apply elem_of_stopTracks in Hlive as [Hlive Hnot].
            destruct (Hleak track Hlive) as (stream' & Hheld & Hin).
            rewrite Hstream in Hheld. injection Hheld as <-. contradiction.
          - destruct (Hleak track Hlive) as (stream' & Hheld & _). congruence. }
        unfold stopCamera. destruct (streamRef s) eqn:Hstream; cbn;
          repeat split; intros; try congruence; rewrite ?Hev; lia.
      * (* asks for the camera *)
        split; [exact Hleak|]. cbn. rewrite Hev.
        repeat split; intros; auto.
    + (* the answer to a request *)
      destruct (pendingMedia s) as [|n] eqn:Hpending.
      * split; [exact Hleak|]. rewrite Hpending. repeat split; intros; auto.
      * assert (n = 0%nat) by lia. subst n.
        pose proof (Hwait eq_refl) as Hactive. pose proof (Hidle Hactive) as Hstream.
        destruct outcome as [stream|reason].
        -- split.
           { intros track Hlive. exists stream. split.
             - cbn. destruct (videoRef s); reflexivity.
             - assert (Hnew : track ∈ liveTracks s ∪ list_to_set (getTracks stream))
                 by (cbn in Hlive; destruct (videoRef s); exact Hlive).
               apply elem_of_union in Hnew as [Hold|Hnew].
               + destruct (Hleak track Hold) as (stream' & Hheld & _). congruence.
               + apply elem_of_list_to_set, list_elem_of_In in Hnew. exact Hnew. }
           cbn. destruct (videoRef s); cbn;
             repeat split; intros; try discriminate; lia.
        -- split; [exact Hleak|]. cbn.
           repeat split; intros; auto.
  - destruct (step_keeps_capture ev s Hcam) as (H1 & H2 & H3 & H4).
    unfold captureInvariant, leakFree. rewrite H1, H2, H3, H4.
    repeat split; assumption.
Qed.

Lemma captureInvariant_mounted : captureInvariant mounted.
Proof.
  unfold captureInvariant, leakFree. cbn. repeat split; try lia.
  intros track Hlive. apply not_elem_of_empty in Hlive. contradiction.
Qed.

(** C5, as the code has it: while capture is active the camera button runs
    stopCamera and issues no camera request, so a start is refused once a
    stream has been granted; and when the button is never pressed while a
    camera request is pending, every track still running belongs to the
    stream the component holds, whatever the events. *)
Theorem one_request_at_a_time_never_leaks (evs : list Event) (s : State) :
  oneRequestAtATime evs mounted ->
  isActive s = true ->
  leakFree (run evs mounted) /\
  handle ClickCamera s = stopCamera s /\
  pendingMedia (step ClickCamera s) = pendingMedia s.
Proof.
  intros Hevs Hactive. split; [|split].
  - assert (H : captureInvariant (run evs mounted)); [|exact (proj1 H)].
    pose proof captureInvariant_mounted as Hinit.
    revert Hevs Hinit. generalize mounted as s0.
    induction evs as [|ev evs IH]; intros s0 Hevs Hinit; [exact Hinit|].
    destruct Hevs as [Hev Hevs]. cbn [run fold_left].
    apply IH; [exact Hevs|]. apply step_keeps_captureInvariant; assumption.
  - cbn [handle]. rewrite Hactive. reflexivity.
  - unfold step, commit. cbn [handle pendingMedia set_interval]. rewrite Hactive.
    unfold stopCamera. destruct (streamRef s); reflexivity.
Qed.

Lemma one_request_at_a_time_never_leaks_witness :
  leakFree (run [ClickCamera; CameraSettles (Fulfilled camera1); ClickCamera;
                 ClickCamera; CameraSettles (Fulfilled camera2)] mounted) /\
  handle ClickCamera capturingWhite = stopCamera capturingWhite.
Proof.
  pose proof (one_request_at_a_time_never_leaks
                [ClickCamera; CameraSettles (Fulfilled camera1); ClickCamera;
                 ClickCamera; CameraSettles (Fulfilled camera2)]
                capturingWhite
                ltac:(cbn; repeat split; reflexivity) eq_refl) as (H1 & H2 & _).
  split; [exact H1 | exact H2].
Defined.

(** C5, as the claim has it, fails: two presses of the button before the
    first request is answered start the camera twice.  The second stream
    replaces the first in streamRef, the track of the first goes on running,
    and stopping afterwards does not reach it. *)
Lemma second_start_leaks_first_stream :
  let s := run [ClickCamera; ClickCamera;
                CameraSettles (Fulfilled camera1);
                CameraSettles (Fulfilled camera2)] mounted in
  streamRef s = Some camera2 /\
  (1%nat ∈ liveTracks s) /\
  ~ leakFree s /\
  (1%nat ∈ liveTracks (step ClickCamera s)) /\
  streamRef (step ClickCamera s) = None.
Proof.
  cbv zeta.
  assert (Hlive : 1%nat ∈ liveTracks
            (run [ClickCamera; ClickCamera; CameraSettles (Fulfilled camera1);
                  CameraSettles (Fulfilled camera2)] mounted)).
  { cbn. rewrite !elem_of_union, !elem_of_singleton. tauto. }
  split; [reflexivity|]. split; [exact Hlive|]. split; [|split; [|reflexivity]].
  - intros Hleak. destruct (Hleak 1%nat Hlive) as (stream & Hheld & Hin).
    cbn in Hheld. injection Hheld as <-. cbn in Hin. lia.
  - cbn. rewrite elem_of_difference, !elem_of_union, !elem_of_singleton.
    split; [tauto | lia].
Qed.

(** ** The copied flag *)

(** A timeout coming due never raises the flag: it keeps it or lowers it. *)
Lemma elapse_never_raises (dt : N) (s : State) :
  copiedColor (elapse dt s) = copiedColor s \/ copiedColor (elapse dt s) = None.
Proof.
  unfold elapse. rewrite clear_all.
  destruct (List.filter _ _); [left | right]; reflexivity.
Qed.

(** C7, as the claim has it, fails: a second copy 1500 ms after a first one
    has its flag lowered 500 ms later, by the timeout of the first. *)
Lemma earlier_timeout_cuts_window_short :
  let s1 := copyToClipboard "#aaaaaa" (Fulfilled tt) mounted in
  let s2 := copyToClipboard "#bbbbbb" (Fulfilled tt) (elapse 1500 s1) in
  copiedColor s2 = Some "#bbbbbb" /\
  now s2 = 1500 /\
  timeouts s2 = [2000; 3500] /\
  copiedColor (elapse 499 s2) = Some "#bbbbbb" /\
  copiedColor (elapse 500 s2) = None /\
  timeouts (elapse 500 s2) = [3500].
Proof. vm_compute. repeat split; reflexivity. Qed.

(** * Further properties *)

(** ** The sampler on the picture *)

Lemma truncate_inject_Z (z : Z) : truncate (inject_Z z) = z.
Proof. unfold truncate, inject_Z. cbn [Qnum Qden]. apply Z.quot_1_r. Qed.

Lemma getImageData_integer (video : HTMLVideoElement) (px py : Z) :
  - 2 ^ 31 <= px < 2 ^ 31 -> - 2 ^ 31 <= py < 2 ^ 31 ->
  getImageData video (of_Z px) (of_Z py) = Returns (pictureAt video px py).
Proof.
  intros Hx Hy. unfold getImageData, of_Z, pictureAt.
  rewrite !truncate_inject_Z.
  replace (- 2 ^ 31 <=? px) with true by (symmetry; apply Z.leb_le; lia).
  replace (px <? 2 ^ 31) with true by (symmetry; apply Z.ltb_lt; lia).
  replace (- 2 ^ 31 <=? py) with true by (symmetry; apply Z.leb_le; lia).
  replace (py <? 2 ^ 31) with true by (symmetry; apply Z.ltb_lt; lia).
  reflexivity.
Qed.

Lemma getColorAtPoint_integer
    (s : State) (video : HTMLVideoElement) (canvas : HTMLCanvasElement) (px py : Z) :
  videoRef s = Some video -> canvasRef s = Some canvas -> getContext2d canvas = true ->
  - 2 ^ 31 <= px < 2 ^ 31 -> - 2 ^ 31 <= py < 2 ^ 31 ->
  getColorAtPoint (of_Z px) (of_Z py) s = Returns (sampleOf (pictureAt video px py)).
Proof.
  intros Hvideo Hcanvas Hctx Hx Hy. unfold getColorAtPoint.
  rewrite Hvideo, Hcanvas, Hctx. cbn [negb].
  rewrite getImageData_integer by assumption.
  destruct (pictureAt video px py) as [[[cr cg] cb] ca]. reflexivity.
Qed.

Lemma pixelOf_upto (q : Q) (dimension : Z) :
  (0 <= q)%Q -> (q <= 100)%Q -> 0 < dimension ->
  0 <= pixelOf (Fin q) dimension <= dimension.
Proof.
  intros Hq0 Hq1 Hd. cbn [pixelOf].
  assert (HW : (0 < inject_Z dimension)%Q)
    by (rewrite (Zlt_Qlt 0 dimension) in Hd; exact Hd).
  assert (Hfrac0 : (0 <= q / 100)%Q) by (apply Qle_shift_div_l; lra).
  assert (Hfrac1 : (q / 100 <= 1)%Q) by (apply Qle_shift_div_r; lra).
  split.
  - change 0 with (Qfloor 0). apply Qfloor_resp_le.
    apply Qmult_le_0_compat; [exact Hfrac0 | lra].
  - rewrite <- (Qfloor_Z dimension) at 2. apply Qfloor_resp_le.
    apply Qle_trans with (1 * inject_Z dimension)%Q.
    + apply Qmult_le_compat_r; [exact Hfrac1 | lra].
    + rewrite Qmult_1_l. apply Qle_refl.
Qed.


(** With the video, the canvas and its context at hand and both points
    percentages, a tick replaces the two samples by what the picture holds
    at the two pixels. *)
Lemma updateColors_percentages
    (c : Captured) (s : State) (video : HTMLVideoElement) (canvas : HTMLCanvasElement) :
  videoRef s = Some video -> canvasRef s = Some canvas -> getContext2d canvas = true ->
  captured_isActive c = true ->
  0 < videoWidth video < 2 ^ 31 -> 0 < videoHeight video < 2 ^ 31 ->
  percentages (captured_topPoint c) -> percentages (captured_bottomPoint c) ->
  updateColors c s =
  setBottomColor
    (sampleOf (pictureAt video
                 (pixelOf (x (captured_bottomPoint c)) (videoWidth video))
                 (pixelOf (y (captured_bottomPoint c)) (videoHeight video))))
    (setTopColor
       (sampleOf (pictureAt video
                    (pixelOf (x (captured_topPoint c)) (videoWidth video))
                    (pixelOf (y (captured_topPoint c)) (videoHeight video))))
       s).
Proof.
  intros Hvideo Hcanvas Hctx Hactive Hw Hh [Htx Hty] [Hbx Hby].
  unfold updateColors. rewrite Hvideo, Hactive. cbn [negb].
  replace (videoWidth video =? 0) with false by (symmetry; apply Z.eqb_neq; lia).
  replace (videoHeight video =? 0) with false by (symmetry; apply Z.eqb_neq; lia).
  cbn [orb].
  destruct (x (captured_topPoint c)) as [tx| | |]; try contradiction.
  destruct (y (captured_topPoint c)) as [ty| | |]; try contradiction.
  destruct (x (captured_bottomPoint c)) as [bx| | |]; try contradiction.
  destruct (y (captured_bottomPoint c)) as [by'| | |]; try contradiction.
  cbn [between] in Htx, Hty, Hbx, Hby.
  pose proof (pixelOf_upto tx (videoWidth video) (proj1 Htx) (proj2 Htx) (proj1 Hw)).
  pose proof (pixelOf_upto ty (videoHeight video) (proj1 Hty) (proj2 Hty) (proj1 Hh)).
  pose proof (pixelOf_upto bx (videoWidth video) (proj1 Hbx) (proj2 Hbx) (proj1 Hw)).
  pose proof (pixelOf_upto by' (videoHeight video) (proj1 Hby) (proj2 Hby) (proj1 Hh)).
  rewrite !toPixel_Fin.
  change (Qfloor (tx / 100 * inject_Z (videoWidth video)))
    with (pixelOf (Fin tx) (videoWidth video)).
  change (Qfloor (ty / 100 * inject_Z (videoHeight video)))
    with (pixelOf (Fin ty) (videoHeight video)).
  change (Qfloor (bx / 100 * inject_Z (videoWidth video)))
    with (pixelOf (Fin bx) (videoWidth video)).
  change (Qfloor (by' / 100 * inject_Z (videoHeight video)))
    with (pixelOf (Fin by') (videoHeight video)).
  rewrite (getColorAtPoint_integer s video canvas) by (try assumption; lia).
  rewrite (getColorAtPoint_integer s video canvas) by (try assumption; lia).
  reflexivity.
Qed.



(** X2: a tick touches nothing but the two samples, in the draggable and in
    the fixed variant alike.  It either leaves the state as it is or sets
    both samples, each to what getColorAtPoint returns on the state at hand,
    never one of them alone; and it leaves the state as it is when rendered
    inactive, when the video element is missing, or when the video has not
    reported a width or a height yet. *)
Theorem tick_changes_only_the_samples (c : Captured) (s : State) :
  setBottomColor (bottomColor s) (setTopColor (topColor s) (updateColors c s)) = s /\
  (updateColors c s = s \/
   exists topX topY bottomX bottomY : number,
     getColorAtPoint topX topY s = Returns (topColor (updateColors c s)) /\
     getColorAtPoint bottomX bottomY s = Returns (bottomColor (updateColors c s))) /\
  (forall active : bool,
      setBottomColor (bottomColor s)
        (setTopColor (topColor s) (FixedPoints.updateColors active s)) = s) /\
  updateColors {| captured_isActive := false;
                  captured_topPoint := captured_topPoint c;
                  captured_bottomPoint := captured_bottomPoint c |} s = s /\
  updateColors c (set_videoRef None s) = set_videoRef None s /\
  (forall (size : Z) (picture : Z -> Z -> Pixel),
      updateColors c (handle (VideoFrame 0 size picture) s)
      = handle (VideoFrame 0 size picture) s /\
      updateColors c (handle (VideoFrame size 0 picture) s)
      = handle (VideoFrame size 0 picture) s).
Proof.
  split; [|split; [|split; [|split; [|split]]]].
  - unfold updateColors. repeat case_match; exact (state_eta s).
  - unfold updateColors.
    destruct (videoRef s) as [video|]; [|left; reflexivity].
    destruct (negb (captured_isActive c)); [left; reflexivity|].
    destruct ((videoWidth video =? 0) || (videoHeight video =? 0)); [left; reflexivity|].
    cbv zeta.
    destruct (getColorAtPoint (toPixel (x (captured_topPoint c)) (videoWidth video))
                (toPixel (y (captured_topPoint c)) (videoHeight video)) s)
      as [newTopColor|] eqn:Htop; [|left; reflexivity].
    destruct (getColorAtPoint (toPixel (x (captured_bottomPoint c)) (videoWidth video))
                (toPixel (y (captured_bottomPoint c)) (videoHeight video)) s)
      as [newBottomColor|] eqn:Hbottom; [|left; reflexivity].
    right. eexists _, _, _, _. split; [exact Htop | exact Hbottom].
  - intros active. unfold FixedPoints.updateColors.
    repeat case_match; exact (state_eta s).
  - unfold updateColors. destruct (videoRef s); reflexivity.
  - reflexivity.
  - intros size picture. cbn [handle]. unfold updateColors.
    destruct (videoRef s) eqn:Hvideo; cbn [videoRef set_videoRef].
    + cbn [videoWidth videoHeight]. rewrite Z.eqb_refl, orb_true_r. cbn [orb].
      destruct (captured_isActive c); split; reflexivity.
    + rewrite Hvideo. split; reflexivity.
Qed.

(** ** Samples and their hex strings *)

Lemma channel_byte (c : byte) : 0 <= channel c <= 255.
Proof.
  unfold channel. pose proof (Byte.to_N_bounded c) as H.
  split; [apply N2Z.is_nonneg|].
  change 255 with (Z.of_N 255). apply N2Z.inj_le. exact H.
Qed.

Lemma sampleOf_wellFormed (p : Pixel) : wellFormed (sampleOf p).
Proof.
  destruct p as [[[cr cg] cb] ca]. unfold wellFormed. cbn [sampleOf hex rgb r g b].
  repeat split; try apply channel_byte.
Qed.

Lemma black_wellFormed : wellFormed black.
Proof. unfold wellFormed. cbn. repeat split; (reflexivity || lia || discriminate). Qed.

Lemma getColorAtPoint_wellFormed (px py : number) (s : State) (c : ColorData) :
  getColorAtPoint px py s = Returns c -> wellFormed c.
Proof.
  unfold getColorAtPoint.
  destruct (videoRef s) as [video|], (canvasRef s) as [canvas|];
    try (intros [= <-]; apply black_wellFormed).
  destruct (getContext2d canvas); cbn [negb];
    [|intros [= <-]; apply black_wellFormed].
  destruct (getImageData video px py) as [[[[cr cg] cb] ca]|e]; [|discriminate].
  intros [= <-]. apply (sampleOf_wellFormed (cr, cg, cb, ca)).
Qed.

Lemma updateColors_wellFormed (c : Captured) (s : State) :
  wellFormed (topColor s) -> wellFormed (bottomColor s) ->
  wellFormed (topColor (updateColors c s)) /\ wellFormed (bottomColor (updateColors c s)).
Proof.
  intros Htop Hbottom. unfold updateColors.
  destruct (videoRef s) as [video|]; [|split; assumption].
  destruct (negb (captured_isActive c)); [split; assumption|].
  destruct ((videoWidth video =? 0) || (videoHeight video =? 0)); [split; assumption|].
  destruct (getColorAtPoint _ _ s) as [newTop|] eqn:Hnewtop; [|split; assumption].
  destruct (getColorAtPoint _ _ s) as [newBottom|] eqn:Hnewbottom in |- *;
    [|split; assumption].
  cbn. split; eapply getColorAtPoint_wellFormed; eassumption.
Qed.

Lemma rgbToHex_digits (r g b : Z) :
  0 <= r <= 255 -> 0 <= g <= 255 -> 0 <= b <= 255 ->
  rgbToHex r g b
  = String "#" (append (twoHexDigits r)
                  (append (twoHexDigits g) (append (twoHexDigits b) EmptyString))).
Proof.
  intros Hr Hg Hb. unfold rgbToHex, join. cbn [map fold_right].
  rewrite !padded_channel by assumption. reflexivity.
Qed.

Lemma rgbToHex_value (r g b : Z) :
  0 <= r <= 255 -> 0 <= g <= 255 -> 0 <= b <= 255 ->
  hexValue 0 (substring 1 6 (rgbToHex r g b)) = Some (65536 * r + 256 * g + b).
Proof.
  intros Hr Hg Hb. rewrite rgbToHex_digits by assumption.
  change (substring 1 6 _)
    with (append (twoHexDigits r)
            (append (twoHexDigits g) (append (twoHexDigits b) EmptyString))).
  rewrite !hexValue_twoHexDigits by assumption. cbn [hexValue]. f_equal. lia.
Qed.

(** X3: if the two samples start out well formed (channels in [0,255], hex
    string that of the channels), they are so after any sequence of events,
    and their hex strings are always seven characters long. *)
Theorem samples_stay_well_formed (evs : list Event) (s : State) :
  wellFormed (topColor s) -> wellFormed (bottomColor s) ->
  (wellFormed (topColor (run evs s)) /\ wellFormed (bottomColor (run evs s))) /\
  String.length (hex (topColor (run evs s))) = 7%nat /\
  String.length (hex (bottomColor (run evs s))) = 7%nat.
Proof.
  intros Htop Hbottom.
  assert (H : wellFormed (topColor (run evs s)) /\ wellFormed (bottomColor (run evs s))).
  { revert s Htop Hbottom. induction evs as [|ev evs IH]; intros s Htop Hbottom.
    - split; assumption.
    - cbn [run fold_left]. apply IH.
      + destruct (isTick ev) eqn:Htick.
        * destruct ev; try discriminate Htick. unfold step, commit.
          cbn [topColor set_interval handle].
          destruct (interval s); [apply updateColors_wellFormed|]; assumption.
        * rewrite (proj1 (step_keeps_colors ev s Htick)). exact Htop.
      + destruct (isTick ev) eqn:Htick.
        * destruct ev; try discriminate Htick. unfold step, commit.
          cbn [bottomColor set_interval handle].
          destruct (interval s); [apply updateColors_wellFormed|]; assumption.
        * rewrite (proj2 (step_keeps_colors ev s Htick)). exact Hbottom. }
  split; [exact H|].
  assert (Hlen : forall c, wellFormed c -> String.length (hex c) = 7%nat).
  { intros c (Hr & Hg & Hb & Hhex). rewrite Hhex, rgbToHex_digits by assumption.
    reflexivity. }
  split; apply Hlen; tauto.
Qed.

Lemma samples_stay_well_formed_witness :
  wellFormed
    (topColor
       (run [ClickCamera; CameraSettles (Fulfilled camera1); VideoFrame 1280 720 white;
             MouseDown Top; farCorner; MouseUp; Tick] mounted)).
Proof.
  pose proof (samples_stay_well_formed
                [ClickCamera; CameraSettles (Fulfilled camera1); VideoFrame 1280 720 white;
                 MouseDown Top; farCorner; MouseUp; Tick]
                mounted black_wellFormed black_wellFormed) as [[H _] _].
  exact H.
Defined.

(** X4: on channel values rgbToHex loses nothing: two colours with the same
    hex string have the same red, green and blue. *)
Theorem rgbToHex_injective (r g b r' g' b' : Z) :
  0 <= r <= 255 -> 0 <= g <= 255 -> 0 <= b <= 255 ->
  0 <= r' <= 255 -> 0 <= g' <= 255 -> 0 <= b' <= 255 ->
  rgbToHex r g b = rgbToHex r' g' b' ->
  r = r' /\ g = g' /\ b = b'.
Proof.
  intros Hr Hg Hb Hr' Hg' Hb' Heq.
  pose proof (rgbToHex_value r g b Hr Hg Hb) as H.
  pose proof (rgbToHex_value r' g' b' Hr' Hg' Hb') as H'.
  rewrite Heq in H. rewrite H in H'. injection H' as H'. lia.
Qed.

Lemma rgbToHex_injective_witness :
  (5 = 5 /\ 255 = 255 /\ 16 = 16) /\ rgbToHex 5 255 16 <> rgbToHex 5 255 17.
Proof.
  split.
  - apply (rgbToHex_injective 5 255 16 5 255 16); (lia || reflexivity).
  - intros Heq.
    pose proof (rgbToHex_injective 5 255 16 5 255 17
                  ltac:(lia) ltac:(lia) ltac:(lia) ltac:(lia) ltac:(lia) ltac:(lia) Heq).
    lia.
Defined.



(** ** Dragging *)

(** X6: the clamp of handleMouseMove is a projection onto [0,100] that only
    NaN escapes: clamping twice is clamping once, the result is NaN exactly
    when the argument is, plus infinity goes to 100, minus infinity to 0 and
    every finite value into [0,100]. *)
Theorem clamp_projects (v : number) :
  clamp (clamp v) = clamp v /\
  is_NaN (clamp v) = is_NaN v /\
  match v with
  | NaN => clamp v = NaN
  | PosInf => clamp v = Fin 100
  | NegInf => clamp v = Fin 0
  | Fin _ => between 0 100 (clamp v)
  end.
Proof.
  destruct v as [q| | |]; try (repeat split; reflexivity).
  split; [|split; [|apply clamp_between; reflexivity]].
  - unfold clamp, Math_min, Math_max.
    destruct (Qle_bool 100 q) eqn:Hhi; [reflexivity|].
    destruct (Qle_bool 0 q) eqn:Hlo; [rewrite Hhi, Hlo|]; reflexivity.
  - unfold clamp, Math_min, Math_max.
    destruct (Qle_bool 100 q); [reflexivity|]. destruct (Qle_bool 0 q); reflexivity.
Qed.

Lemma rawPercent_finite (client origin extent : Q) :
  (0 < extent)%Q ->
  rawPercent client origin extent = Fin ((client - origin) / extent * 100).
Proof.
  intros Hext. unfold rawPercent. cbn [sub div].
  assert (H : (extent ?= 0)%Q = Gt) by (apply Qgt_alt; exact Hext).
  rewrite H. reflexivity.
Qed.

Lemma clamp_rawPercent (client origin extent : Q) :
  (0 < extent)%Q ->
  exists q, clamp (rawPercent client origin extent) = Fin q /\
            (q == relativePercent client origin extent)%Q.
Proof.
  intros Hext. rewrite rawPercent_finite by exact Hext.
  set (t := ((client - origin) / extent)%Q).
  assert (Ht : (t * extent == client - origin)%Q).
  { unfold t. field. intros H. rewrite H in Hext. discriminate Hext. }
  unfold clamp, Math_min, Math_max, relativePercent.
  destruct (Qle_bool 100 (t * 100)) eqn:Hhi.
  - apply Qle_bool_iff in Hhi. exists 100%Q. split; [reflexivity|].
    assert (Hone : (1 <= t)%Q) by lra.
    assert (Hfar : (extent <= t * extent)%Q) by nra.
    destruct (Qle_bool client origin) eqn:Hleft.
    + apply Qle_bool_iff in Hleft. lra.
    + destruct (Qle_bool (origin + extent) client) eqn:Hright; [reflexivity|].
      assert (Hno : ~ (origin + extent <= client)%Q)
        by (intros H; apply Qle_bool_iff in H; congruence).
      exfalso. apply Hno. lra.
  - assert (Hlt : (t * 100 < 100)%Q).
    { apply Qnot_le_lt. intros H. apply Qle_bool_iff in H. congruence. }
    assert (Hnear : (t * extent < extent)%Q) by nra.
    destruct (Qle_bool 0 (t * 100)) eqn:Hlo.
    + apply Qle_bool_iff in Hlo. exists (t * 100)%Q. split; [reflexivity|].
      assert (Hpos : (0 <= t * extent)%Q) by nra.
      destruct (Qle_bool client origin) eqn:Hleft.
      * apply Qle_bool_iff in Hleft.
        assert (Hzero : (t * extent == 0)%Q) by lra.
        assert (Htz : (t == 0)%Q) by nra. rewrite Htz. reflexivity.
      * destruct (Qle_bool (origin + extent) client) eqn:Hright; [|reflexivity].
        apply Qle_bool_iff in Hright. lra.
    + assert (Hneg : (t * 100 < 0)%Q).
      { apply Qnot_le_lt. intros H. apply Qle_bool_iff in H. congruence. }
      exists 0%Q. split; [reflexivity|].
      assert (Hbefore : (t * extent < 0)%Q) by nra.
      destruct (Qle_bool client origin) eqn:Hleft; [reflexivity|].
      assert (Hno : ~ (client <= origin)%Q)
        by (intros H; apply Qle_bool_iff in H; congruence).
      exfalso. apply Hno. lra.
Qed.

Lemma relativePercent_pinned (client origin extent : Q) :
  (0 < extent)%Q ->
  pinned client origin extent (relativePercent client origin extent).
Proof.
  intros Hext. unfold pinned, relativePercent.
  destruct (Qle_bool client origin) eqn:Hleft; [reflexivity|].
  destruct (Qle_bool (origin + extent) client) eqn:Hright; [reflexivity|].
  assert (Hin : (origin < client)%Q).
  { apply Qnot_le_lt. intros H. apply Qle_bool_iff in H. congruence. }
  assert (Hbefore : (client < origin + extent)%Q).
  { apply Qnot_le_lt. intros H. apply Qle_bool_iff in H. congruence. }
  set (t := ((client - origin) / extent)%Q).
  assert (Ht : (t * extent == client - origin)%Q).
  { unfold t. field. intros H. rewrite H in Hext. discriminate Hext. }
  split; nra.
Qed.

Lemma relativePercent_monotone (client client' origin extent : Q) :
  (0 < extent)%Q -> (client <= client')%Q ->
  (relativePercent client origin extent <= relativePercent client' origin extent)%Q.
Proof.
  intros Hext Hle.
  pose proof (relativePercent_pinned client origin extent Hext) as Hp.
  pose proof (relativePercent_pinned client' origin extent Hext) as Hp'.
  unfold pinned in Hp, Hp'. unfold relativePercent in *.
  destruct (Qle_bool client origin) eqn:Hleft.
  - destruct (Qle_bool client' origin); [apply Qle_refl|].
    destruct (Qle_bool (origin + extent) client'); [discriminate | tauto].
  - assert (Hin : (origin < client)%Q).
    { apply Qnot_le_lt. intros H. apply Qle_bool_iff in H. congruence. }
    destruct (Qle_bool client' origin) eqn:Hleft'.
    { apply Qle_bool_iff in Hleft'. lra. }
    destruct (Qle_bool (origin + extent) client) eqn:Hright.
    + apply Qle_bool_iff in Hright.
      destruct (Qle_bool (origin + extent) client') eqn:Hright'; [apply Qle_refl|].
      assert (Hno : ~ (origin + extent <= client')%Q)
        by (intros H; apply Qle_bool_iff in H; congruence).
      exfalso. apply Hno. lra.
    + destruct (Qle_bool (origin + extent) client') eqn:Hright'; [tauto|].
      set (t := ((client - origin) / extent)%Q).
      set (t' := ((client' - origin) / extent)%Q).
      assert (Ht : (t * extent == client - origin)%Q).
      { unfold t. field. intros H. rewrite H in Hext. discriminate Hext. }
      assert (Ht' : (t' * extent == client' - origin)%Q).
      { unfold t'. field. intros H. rewrite H in Hext. discriminate Hext. }
      assert (Hord : (t <= t')%Q) by nra. lra.
Qed.

(** X7: during a drag over a container with an area, a pointer at or before
    the left or top edge puts the coordinate at 0, a pointer at or beyond
    the right or bottom edge puts it at 100, and of two pointer positions
    the one further right or further down never gives the smaller
    coordinate. *)
Theorem drag_pins_to_edges_and_keeps_order
    (e e' : MouseEvent) (rect : DOMRect) (dragged : PointName) (s : State) :
  (0 < rect_width rect)%Q -> (0 < rect_height rect)%Q ->
  isDragging s = Some dragged ->
  exists qx qy qx' qy' : Q,
    pointOf dragged (handleMouseMove e (Some rect) s) = {| x := Fin qx; y := Fin qy |} /\
    pointOf dragged (handleMouseMove e' (Some rect) s) = {| x := Fin qx'; y := Fin qy' |} /\
    pinned (clientX e) (rect_left rect) (rect_width rect) qx /\
    pinned (clientY e) (rect_top rect) (rect_height rect) qy /\
    (if Qle_bool (clientX e) (clientX e') then qx <= qx' else qx' <= qx)%Q /\
    (if Qle_bool (clientY e) (clientY e') then qy <= qy' else qy' <= qy)%Q.
Proof.
  intros Hw Hh Hdrag.
  destruct (clamp_rawPercent (clientX e) (rect_left rect) (rect_width rect) Hw)
    as (qx & Hx & Hqx).
  destruct (clamp_rawPercent (clientY e) (rect_top rect) (rect_height rect) Hh)
    as (qy & Hy & Hqy).
  destruct (clamp_rawPercent (clientX e') (rect_left rect) (rect_width rect) Hw)
    as (qx' & Hx' & Hqx').
  destruct (clamp_rawPercent (clientY e') (rect_top rect) (rect_height rect) Hh)
    as (qy' & Hy' & Hqy').
  exists qx, qy, qx', qy'.
  assert (Hpin : forall client origin extent q,
            (0 < extent)%Q -> (q == relativePercent client origin extent)%Q ->
            pinned client origin extent q).
  { intros client origin extent q Hext Hq.
    pose proof (relativePercent_pinned client origin extent Hext) as H.
    unfold pinned in *.
    destruct (Qle_bool client origin); [rewrite Hq; exact H|].
    destruct (Qle_bool (origin + extent) client); rewrite Hq; exact H. }
  assert (Hord : forall c c' origin extent q q',
            (0 < extent)%Q ->
            (q == relativePercent c origin extent)%Q ->
            (q' == relativePercent c' origin extent)%Q ->
            (if Qle_bool c c' then q <= q' else q' <= q)%Q).
  { intros c c' origin extent q q' Hext Hq Hq'.
    destruct (Qle_bool c c') eqn:Hc; rewrite Hq, Hq'.
    - apply relativePercent_monotone; [exact Hext | apply Qle_bool_iff, Hc].
    - apply relativePercent_monotone; [exact Hext|].
      apply Qlt_le_weak, Qnot_le_lt. intros H. apply Qle_bool_iff in H. congruence. }
  unfold handleMouseMove. rewrite Hdrag. unfold rawPercent in Hx, Hy, Hx', Hy'.
  split; [destruct dragged; cbn [pointOf topPoint bottomPoint setTopPoint setBottomPoint];
          rewrite Hx, Hy; reflexivity|].
  split; [destruct dragged; cbn [pointOf topPoint bottomPoint setTopPoint setBottomPoint];
          rewrite Hx', Hy'; reflexivity|].
  split; [apply Hpin; assumption|]. split; [apply Hpin; assumption|].
  split.
  - apply (Hord (clientX e) (clientX e') (rect_left rect) (rect_width rect)); assumption.
  - apply (Hord (clientY e) (clientY e') (rect_top rect) (rect_height rect)); assumption.
Qed.

Lemma drag_pins_to_edges_and_keeps_order_witness :
  exists qx qy qx' qy' : Q,
    pointOf Top
      (handleMouseMove {| clientX := 33; clientY := 23 |}
         (Some {| rect_left := 10; rect_top := 10; rect_width := 640; rect_height := 360 |})
         (handleMouseDown Top capturingWhite))
    = {| x := Fin qx; y := Fin qy |} /\
    pointOf Top
      (handleMouseMove {| clientX := 5000; clientY := 5 |}
         (Some {| rect_left := 10; rect_top := 10; rect_width := 640; rect_height := 360 |})
         (handleMouseDown Top capturingWhite))
    = {| x := Fin qx'; y := Fin qy' |} /\
    (qx <= qx')%Q /\ (qy' <= qy)%Q /\ (qx' == 100)%Q /\ (qy' == 0)%Q.
Proof.
  destruct (drag_pins_to_edges_and_keeps_order
              {| clientX := 5000; clientY := 5 |} {| clientX := 33; clientY := 23 |}
              {| rect_left := 10; rect_top := 10; rect_width := 640; rect_height := 360 |}
              Top (handleMouseDown Top capturingWhite) eq_refl eq_refl eq_refl)
    as (qx' & qy' & qx & qy & H' & H & Hpx & Hpy & Hox & Hoy).
  exists qx, qy, qx', qy'.
  split; [exact H|]. split; [exact H'|].
  split; [exact Hox|]. split; [exact Hoy|]. split; [exact Hpx | exact Hpy].
Defined.

Lemma handleMouseMove_other_point
    (e : MouseEvent) (container : option DOMRect) (dragged : PointName) (s : State) :
  isDragging s = Some dragged ->
  pointOf (other dragged) (handleMouseMove e container s) = pointOf (other dragged) s.
Proof.
  intros Hdrag. unfold handleMouseMove. rewrite Hdrag.
  destruct dragged, container; reflexivity.
Qed.

(** X8: a pointer move changes nothing but the two points, and of those
    only the one being dragged; without a drag under way or without the
    container it changes nothing at all. *)
Theorem pointer_move_changes_only_the_dragged_point
    (e : MouseEvent) (container : option DOMRect) (s : State) :
  setTopPoint (topPoint s) (setBottomPoint (bottomPoint s) (handleMouseMove e container s)) = s /\
  match isDragging s with
  | Some dragged =>
      pointOf (other dragged) (handleMouseMove e container s) = pointOf (other dragged) s
  | None => handleMouseMove e container s = s
  end /\
  handleMouseMove e None s = s.
Proof.
  unfold handleMouseMove. split; [|split].
  - destruct (isDragging s) as [[]|], container; exact (state_eta s).
  - destruct (isDragging s) as [[]|], container; reflexivity.
  - destruct (isDragging s); reflexivity.
Qed.

Lemma run_app (evs1 evs2 : list Event) (s : State) :
  run (evs1 ++ evs2) s = run evs2 (run evs1 s).
Proof. unfold run. apply fold_left_app. Qed.

(** Events other than presses and releases on the markers leave the drag
    state alone. *)
Lemma step_keeps_isDragging (ev : Event) (s : State) :
  match ev with MouseDown _ | MouseUp => False | _ => True end ->
  isDragging (step ev s) = isDragging s.
Proof.
  intros Hev. unfold step, commit. cbn [isDragging set_interval].
  destruct ev; try contradiction; cbn [handle].
  - destruct (isActive s); [unfold stopCamera; destruct (streamRef s)|]; reflexivity.
  - destruct (pendingMedia s); [reflexivity|].
    destruct outcome; cbn; [destruct (videoRef s)|]; reflexivity.
  - unfold handleMouseMove.
    destruct (isDragging s) as [[]|] eqn:Hdrag, container; cbn; congruence.
  - destruct (isActive s); reflexivity.
  - destruct (pendingCopies s); [reflexivity|]. destruct outcome; reflexivity.
  - destruct (interval s); [|reflexivity].
    unfold updateColors. repeat case_match; reflexivity.
  - destruct (videoRef s); reflexivity.
  - unfold elapse. rewrite clear_all. destruct (List.filter _ _); reflexivity.
Qed.

(** Events other than pointer moves leave the points alone. *)
Lemma step_keeps_points (ev : Event) (s : State) :
  isMouseMove ev = false ->
  topPoint (step ev s) = topPoint s /\ bottomPoint (step ev s) = bottomPoint s.
Proof.
  intros Hev. unfold step, commit. cbn [topPoint bottomPoint set_interval].
  destruct ev; try discriminate Hev; cbn [handle].
  - destruct (isActive s); [unfold stopCamera; destruct (streamRef s)|]; split; reflexivity.
  - destruct (pendingMedia s); [split; reflexivity|].
    destruct outcome; cbn; [destruct (videoRef s)|]; split; reflexivity.
  - destruct (isActive s); split; reflexivity.
  - destruct (isDragging s); split; reflexivity.
  - destruct (isActive s); split; reflexivity.
  - destruct (pendingCopies s); [split; reflexivity|].
    destruct outcome; split; reflexivity.
  - destruct (interval s); [|split; reflexivity].
    unfold updateColors. repeat case_match; split; reflexivity.
  - destruct (videoRef s); split; reflexivity.
  - unfold elapse. rewrite clear_all. destruct (List.filter _ _); split; reflexivity.
Qed.

(** X9: the points move only in a drag: when no drag is under way and no
    marker is pressed, both points are where they were after any sequence
    of events, pointer moves included, and still no drag is under way. *)
Theorem points_move_only_in_a_drag (evs : list Event) (s : State) :
  isDragging s = None ->
  Forall (fun ev => isMouseDown ev = false) evs ->
  topPoint (run evs s) = topPoint s /\
  bottomPoint (run evs s) = bottomPoint s /\
  isDragging (run evs s) = None.
Proof.
  intros Hidle Hevs. revert s Hidle.
  induction Hevs as [|ev evs Hev _ IH]; intros s Hidle; [repeat split; assumption|].
  cbn [run fold_left].
  assert (Hstep : topPoint (step ev s) = topPoint s /\
                  bottomPoint (step ev s) = bottomPoint s /\
                  isDragging (step ev s) = None).
  { destruct ev; try discriminate Hev;
      try (split; [apply step_keeps_points; reflexivity|];
           split; [apply step_keeps_points; reflexivity|];
           rewrite step_keeps_isDragging by exact I; exact Hidle).
    - unfold step, commit. cbn [handle topPoint bottomPoint isDragging set_interval].
      rewrite Hidle. repeat split; exact Hidle.
    - unfold step, commit. cbn [handle topPoint bottomPoint isDragging set_interval].
      rewrite Hidle. repeat split; exact Hidle. }
  destruct Hstep as (H1 & H2 & H3). destruct (IH (step ev s) H3) as (H4 & H5 & H6).
  unfold run in H4, H5, H6. rewrite H4, H5, H6, H1, H2. repeat split.
Qed.

Lemma points_move_only_in_a_drag_witness :
  topPoint (run [farCorner; Tick; MouseUp; farCorner] capturingWhite)
  = topPoint capturingWhite.
Proof.
  pose proof (points_move_only_in_a_drag [farCorner; Tick; MouseUp; farCorner]
                capturingWhite eq_refl ltac:(repeat constructor)) as (H & _ & _).
  exact H.
Defined.

Lemma moves_keep_the_drag (moves : list Event) (name : PointName) (s : State) :
  Forall (fun ev => isMouseMove ev = true) moves ->
  isDragging s = Some name ->
  isDragging (run moves s) = Some name /\
  pointOf (other name) (run moves s) = pointOf (other name) s /\
  isActive (run moves s) = isActive s.
Proof.
  intros Hmoves. revert s. induction Hmoves as [|ev moves Hev _ IH]; intros s Hdrag.
  - repeat split; assumption.
  - cbn [run fold_left]. destruct ev; try discriminate Hev.
    assert (Hstep : isDragging (step (MouseMove e container) s) = Some name /\
                    pointOf (other name) (step (MouseMove e container) s)
                    = pointOf (other name) s /\
                    isActive (step (MouseMove e container) s) = isActive s).
    { split; [rewrite step_keeps_isDragging by exact I; exact Hdrag|].
      split; [|apply step_keeps_capture; reflexivity].
      unfold step, commit. cbn [handle]. rewrite Hdrag.
      apply handleMouseMove_other_point, Hdrag. }
    destruct Hstep as (H1 & H2 & H3). destruct (IH _ H1) as (H4 & H5 & H6).
    unfold run in H4, H5, H6. rewrite H4, H5, H6, H2, H3. repeat split.
Qed.

Lemma step_move_in_a_drag
    (e : MouseEvent) (rect : DOMRect) (name : PointName) (s : State) :
  isDragging s = Some name ->
  isDragging (step (MouseMove e (Some rect)) s) = Some name /\
  pointOf name (step (MouseMove e (Some rect)) s)
  = {| x := clamp (rawPercent (clientX e) (rect_left rect) (rect_width rect));
       y := clamp (rawPercent (clientY e) (rect_top rect) (rect_height rect)) |} /\
  pointOf (other name) (step (MouseMove e (Some rect)) s) = pointOf (other name) s.
Proof.
  intros Hdrag. split; [rewrite step_keeps_isDragging by exact I; exact Hdrag|].
  unfold step, commit. cbn [handle]. rewrite Hdrag.
  unfold handleMouseMove, rawPercent. rewrite Hdrag.
  destruct name; split; reflexivity.
Qed.

(** X10: a whole gesture - a press on a marker while capture is active, any
    pointer moves, a last move over the container and the release - leaves
    no drag under way, the pressed point where that last move alone would
    have put it, and the other point where it was. *)
Theorem drag_gesture_lands_on_the_last_move
    (name : PointName) (moves : list Event) (e : MouseEvent) (rect : DOMRect) (s : State) :
  isActive s = true ->
  Forall (fun ev => isMouseMove ev = true) moves ->
  let s' := run (MouseDown name :: moves ++ [MouseMove e (Some rect); MouseUp]) s in
  isDragging s' = None /\
  pointOf name s' = pointOf name (handleMouseMove e (Some rect) (handleMouseDown name s)) /\
  pointOf (other name) s' = pointOf (other name) s.
Proof.
  intros Hactive Hmoves s'. subst s'.
  change (run (MouseDown name :: moves ++ [MouseMove e (Some rect); MouseUp]) s)
    with (run (moves ++ [MouseMove e (Some rect); MouseUp]) (step (MouseDown name) s)).
  rewrite run_app.
  assert (Hpressed : isDragging (step (MouseDown name) s) = Some name).
  { unfold step, commit. cbn [handle isDragging set_interval]. rewrite Hactive. reflexivity. }
  assert (Hsame : pointOf (other name) (step (MouseDown name) s) = pointOf (other name) s).
  { unfold step, commit. cbn [handle]. rewrite Hactive. destruct name; reflexivity. }
  destruct (moves_keep_the_drag moves name (step (MouseDown name) s) Hmoves Hpressed)
    as (Hdrag & Hother & _).
  rewrite Hsame in Hother.
  set (sm := run moves (step (MouseDown name) s)) in *.
  change (run [MouseMove e (Some rect); MouseUp] sm)
    with (step MouseUp (step (MouseMove e (Some rect)) sm)).
  destruct (step_move_in_a_drag e rect name sm Hdrag) as (Hstill & Hnew & Hkept).
  set (s1 := step (MouseMove e (Some rect)) sm) in *.
  destruct (step_keeps_points MouseUp s1 eq_refl) as [Htop Hbottom].
  assert (Halone : pointOf name (handleMouseMove e (Some rect) (handleMouseDown name s))
                   = {| x := clamp (rawPercent (clientX e) (rect_left rect) (rect_width rect));
                        y := clamp (rawPercent (clientY e) (rect_top rect) (rect_height rect)) |}).
  { unfold handleMouseMove, handleMouseDown, rawPercent. destruct name; reflexivity. }
  split; [|split].
  - unfold step, commit. cbn [handle isDragging set_interval]. rewrite Hstill. reflexivity.
  - rewrite Halone, <- Hnew. destruct name; cbn [pointOf]; assumption.
  - rewrite <- Hother, <- Hkept. destruct name; cbn [pointOf other]; assumption.
Qed.

Lemma drag_gesture_lands_on_the_last_move_witness :
  pointOf Top
    (run (MouseDown Top :: [farCorner] ++
          [MouseMove {| clientX := 33; clientY := 23 |}
             (Some {| rect_left := 10; rect_top := 10; rect_width := 640; rect_height := 360 |});
           MouseUp]) capturingWhite)
  = pointOf Top
      (handleMouseMove {| clientX := 33; clientY := 23 |}
         (Some {| rect_left := 10; rect_top := 10; rect_width := 640; rect_height := 360 |})
         (handleMouseDown Top capturingWhite)).
Proof.
  pose proof (drag_gesture_lands_on_the_last_move Top [farCorner]
                {| clientX := 33; clientY := 23 |}
                {| rect_left := 10; rect_top := 10; rect_width := 640; rect_height := 360 |}
                capturingWhite eq_refl ltac:(repeat constructor)) as H.
  cbv zeta in H. destruct H as (_ & H & _). exact H.
Defined.

(** X11: with both points percentages, the label of the top point is drawn
    between 0 and 92 percent from the top and the label of the bottom point
    between 8 and 92 percent. *)
Theorem labels_stay_on_the_overlay (s : State) :
  percentages (topPoint s) -> percentages (bottomPoint s) ->
  between 0 92 (topLabelTop s) /\ between 8 92 (bottomLabelTop s).
Proof.
  intros [_ Htop] [_ Hbottom]. unfold topLabelTop, bottomLabelTop.
  destruct (y (topPoint s)) as [qt| | |]; try contradiction.
  destruct (y (bottomPoint s)) as [qb| | |]; try contradiction.
  cbn [between] in Htop, Hbottom. cbn [sub add Math_max Math_min]. split.
  - destruct (Qle_bool 0 (qt - 8)) eqn:Hlo; cbn [between].
    + apply Qle_bool_iff in Hlo. split; lra.
    + split; [apply Qle_refl | discriminate].
  - destruct (Qle_bool 92 (qb + 8)) eqn:Hhi; cbn [between].
    + split; [discriminate | apply Qle_refl].
    + assert (Hlt : (qb + 8 < 92)%Q).
      { apply Qnot_le_lt. intros H. apply Qle_bool_iff in H. congruence. }
      split; lra.
Qed.

Lemma labels_stay_on_the_overlay_witness :
  between 0 92 (topLabelTop capturingWhite) /\ between 8 92 (bottomLabelTop capturingWhite).
Proof.
  apply (labels_stay_on_the_overlay capturingWhite);
    vm_compute; repeat split; discriminate.
Defined.

(** ** Starting and stopping *)

Lemma stopTracks_difference (stream : MediaStream) (live : gset nat) :
  stopTracks stream live = live ∖ list_to_set (getTracks stream).
Proof.
  apply set_eq. intros track.
  rewrite elem_of_stopTracks, elem_of_difference, elem_of_list_to_set, list_elem_of_In.
  reflexivity.
Qed.

Lemma step_granted (stream : MediaStream) (s : State) (n : nat) :
  pendingMedia s = S n ->
  let s' := step (CameraSettles (Fulfilled stream)) s in
  isActive s' = true /\ streamRef s' = Some stream /\
  interval s' = Some {| captured_isActive := true;
                        captured_topPoint := topPoint s;
                        captured_bottomPoint := bottomPoint s |} /\
  liveTracks s' = liveTracks s ∪ list_to_set (getTracks stream) /\
  (topColor s' = topColor s /\ bottomColor s' = bottomColor s) /\
  (topPoint s' = topPoint s /\ bottomPoint s' = bottomPoint s) /\
  copiedColor s' = copiedColor s /\
  match videoRef s, videoRef s' with
  | Some _, Some video => srcObject video = Some stream /\ playing video = true
  | None, None => True
  | _, _ => False
  end.
Proof.
  intros Hpending s'. subst s'. unfold step, commit. cbn [handle]. rewrite Hpending.
  unfold startCamera, getUserMedia.
  cbn [videoRef set_streamRef set_liveTracks set_pendingMedia].
  destruct (videoRef s) as [video|] eqn:Hvideo.
  - repeat split.
  - repeat split. cbn. rewrite Hvideo. exact I.
Qed.

Lemma step_stop (s : State) :
  isActive s = true ->
  let s' := step ClickCamera s in
  isActive s' = false /\ streamRef s' = None /\ interval s' = None /\
  liveTracks s' = match streamRef s with
                  | Some stream => stopTracks stream (liveTracks s)
                  | None => liveTracks s
                  end /\
  (topColor s' = topColor s /\ bottomColor s' = bottomColor s) /\
  (topPoint s' = topPoint s /\ bottomPoint s' = bottomPoint s) /\
  copiedColor s' = copiedColor s /\
  videoRef s' = videoRef s.
Proof.
  intros Hactive s'. subst s'. unfold step, commit. cbn [handle]. rewrite Hactive.
  unfold stopCamera. destruct (streamRef s) eqn:Hstream; repeat split; exact Hstream.
Qed.

(** X12: a granted camera request starts capture - active flag set, stream
    held, its tracks running, sampling timer armed with the points as they
    are - and a press on the button then undoes it: flag cleared, handle
    null, timer cleared, every track of the stream stopped.  Samples, points
    and the copied flag are as before the start, while the video element
    still has the stopped stream as its source. *)
Theorem start_then_stop_releases_the_camera (stream : MediaStream) (s : State) (n : nat) :
  pendingMedia s = S n ->
  let started := step (CameraSettles (Fulfilled stream)) s in
  let stopped := step ClickCamera started in
  (isActive started = true /\ streamRef started = Some stream /\
   interval started = Some {| captured_isActive := true;
                              captured_topPoint := topPoint s;
                              captured_bottomPoint := bottomPoint s |} /\
   liveTracks started = liveTracks s ∪ list_to_set (getTracks stream)) /\
  (isActive stopped = false /\ streamRef stopped = None /\ interval stopped = None /\
   liveTracks stopped = liveTracks s ∖ list_to_set (getTracks stream)) /\
  (topColor stopped = topColor s /\ bottomColor stopped = bottomColor s /\
   topPoint stopped = topPoint s /\ bottomPoint stopped = bottomPoint s /\
   copiedColor stopped = copiedColor s) /\
  match videoRef s, videoRef stopped with
  | Some _, Some video => srcObject video = Some stream /\ playing video = true
  | None, None => True
  | _, _ => False
  end.
Proof.
  intros Hpending started stopped.
  destruct (step_granted stream s n Hpending)
    as (Hactive & Hstream & Htimer & Hlive & Hcolors & Hpoints & Hcopied & Hvideo).
  fold started in Hactive, Hstream, Htimer, Hlive, Hcolors, Hpoints, Hcopied, Hvideo.
  destruct (step_stop started Hactive)
    as (Hactive' & Hstream' & Htimer' & Hlive' & Hcolors' & Hpoints' & Hcopied' & Hvideo').
  fold stopped in Hactive', Hstream', Htimer', Hlive', Hcolors', Hpoints', Hcopied', Hvideo'.
  rewrite Hstream in Hlive'.
  split; [repeat split; assumption|].
  split; [repeat split; try assumption|].
  { rewrite Hlive', Hlive, stopTracks_difference.
    apply set_eq. intros track. rewrite !elem_of_difference, elem_of_union. tauto. }
  split.
  { destruct Hcolors' as [-> ->], Hpoints' as [-> ->], Hcolors as [-> ->], Hpoints as [-> ->].
    rewrite Hcopied', Hcopied. repeat split. }
  rewrite Hvideo'. exact Hvideo.
Qed.

Lemma start_then_stop_releases_the_camera_witness :
  let stopped := step ClickCamera
                   (step (CameraSettles (Fulfilled camera1)) (step ClickCamera mounted)) in
  isActive stopped = false /\ streamRef stopped = None /\ interval stopped = None.
Proof.
  pose proof (start_then_stop_releases_the_camera camera1 (step ClickCamera mounted) 0
                eq_refl) as H.
  cbv zeta in H. destruct H as (_ & (H1 & H2 & H3 & _) & _).
  cbv zeta. split; [exact H1|split; [exact H2|exact H3]].
Defined.

(** X13: stopCamera changes nothing but the active flag, the stream handle,
    the running tracks and the toasts: the last samples, the points, the
    copied flag and the video element with its source stay as they are.  It
    never starts a track, adds exactly one toast, and a second stop in a row
    changes nothing but the toasts. *)
Theorem stopCamera_keeps_the_rest (s : State) :
  set_toasts (toasts s)
    (setIsActive (isActive s)
       (set_streamRef (streamRef s) (set_liveTracks (liveTracks s) (stopCamera s)))) = s /\
  liveTracks (stopCamera s) ⊆ liveTracks s /\
  length (toasts (stopCamera s)) = S (length (toasts s)) /\
  set_toasts (toasts (stopCamera s)) (stopCamera (stopCamera s)) = stopCamera s.
Proof.
  unfold stopCamera.
  destruct (streamRef s) as [stream|] eqn:Hstream; cbn; rewrite ?stopTracks_difference.
  - split; [rewrite <- Hstream; exact (state_eta s)|].
    split; [intros track Hlive; apply elem_of_difference in Hlive as [Hlive _]; exact Hlive|]. split; [rewrite length_app; cbn; lia | reflexivity].
  - rewrite Hstream. cbn.
    split; [rewrite <- Hstream; exact (state_eta s)|].
    split; [reflexivity|]. split; [rewrite length_app; cbn; lia | reflexivity].
Qed.

(** ** Timeouts *)

(** [elapse], field by field. *)
Lemma elapse_record (dt : N) (s : State) :
  elapse dt s =
  {| isActive := isActive s; topColor := topColor s; bottomColor := bottomColor s;
     copiedColor := match List.filter (fun d => d <=? now s + Z.of_N dt) (timeouts s) with
                    | [] => copiedColor s
                    | _ :: _ => None
                    end;
     topPoint := topPoint s; bottomPoint := bottomPoint s;
     isDragging := isDragging s; videoRef := videoRef s; canvasRef := canvasRef s;
     streamRef := streamRef s; liveTracks := liveTracks s; interval := interval s;
     timeouts := List.filter (fun d => negb (d <=? now s + Z.of_N dt)) (timeouts s);
     now := now s + Z.of_N dt; toasts := toasts s; console := console s;
     pendingMedia := pendingMedia s; pendingCopies := pendingCopies s |}.
Proof.
  unfold elapse. rewrite clear_all. destruct (List.filter _ _); reflexivity.
Qed.

Lemma waiting_twice (t1 t2 : Z) (l : list Z) :
  t1 <= t2 ->
  List.filter (fun d => negb (d <=? t2)) (List.filter (fun d => negb (d <=? t1)) l)
  = List.filter (fun d => negb (d <=? t2)) l.
Proof.
  intros Ht. induction l as [|d l IH]; [reflexivity|]. cbn [List.filter].
  destruct (Z.leb_spec d t1) as [H1|H1]; cbn [negb].
  - destruct (Z.leb_spec d t2) as [H2|H2]; [exact IH | lia].
  - cbn [List.filter]. rewrite IH. reflexivity.
Qed.

Lemma due_twice (t1 t2 : Z) (l : list Z) (flag : option string) :
  t1 <= t2 ->
  match List.filter (fun d => d <=? t2) (List.filter (fun d => negb (d <=? t1)) l) with
  | [] => match List.filter (fun d => d <=? t1) l with
          | [] => flag
          | _ :: _ => None
          end
  | _ :: _ => None
  end
  = match List.filter (fun d => d <=? t2) l with
    | [] => flag
    | _ :: _ => None
    end.
Proof.
  intros Ht. induction l as [|d l IH]; [reflexivity|]. cbn [List.filter].
  destruct (Z.leb_spec d t1) as [H1|H1]; cbn [negb].
  - destruct (Z.leb_spec d t2) as [H2|H2]; [|lia].
    destruct (List.filter (fun d => d <=? t2) (List.filter (fun d => negb (d <=? t1)) l));
      reflexivity.
  - cbn [List.filter]. destruct (Z.leb_spec d t2) as [H2|H2]; [reflexivity | exact IH].
Qed.

(** Letting time pass in two stretches is letting it pass in one: the same
    timeouts come due, the same ones stay pending, and the copied flag ends
    the same. *)
Lemma elapse_composes (a b : N) (s : State) :
  elapse b (elapse a s) = elapse (a + b) s.
Proof.
  rewrite (elapse_record b), (elapse_record a), (elapse_record (a + b)).
  cbn [isActive topColor bottomColor copiedColor topPoint bottomPoint isDragging
       videoRef canvasRef streamRef liveTracks interval timeouts now toasts console
       pendingMedia pendingCopies].
  assert (Hnow : now s + Z.of_N a + Z.of_N b = now s + Z.of_N (a + b)) by lia.
  rewrite Hnow.
  rewrite (waiting_twice (now s + Z.of_N a) (now s + Z.of_N (a + b))) by lia.
  rewrite (due_twice (now s + Z.of_N a) (now s + Z.of_N (a + b))) by lia.
  reflexivity.
Qed.

(** Events other than the answer to a clipboard write and the passing of
    time leave the flag, the timeouts and the clock alone. *)
Lemma step_keeps_timers (ev : Event) (s : State) :
  match ev with ClipboardSettles _ | Elapse _ => False | _ => True end ->
  copiedColor (step ev s) = copiedColor s /\
  timeouts (step ev s) = timeouts s /\
  now (step ev s) = now s.
Proof.
  intros Hev. unfold step, commit. cbn [copiedColor timeouts now set_interval].
  destruct ev; try contradiction; cbn [handle].
  - destruct (isActive s); [unfold stopCamera; destruct (streamRef s)|]; repeat split.
  - destruct (pendingMedia s); [repeat split|].
    destruct outcome; cbn; [destruct (videoRef s)|]; repeat split.
  - destruct (isActive s); repeat split.
  - unfold handleMouseMove. destruct (isDragging s) as [[]|], container; repeat split.
  - destruct (isDragging s); repeat split.
  - destruct (isActive s); repeat split.
  - destruct (interval s); [|repeat split].
    unfold updateColors. repeat case_match; repeat split.
  - destruct (videoRef s); repeat split.
Qed.

(** While one copy window is open and no other copy succeeds, the flag and
    the timeout follow the clock. *)
Lemma step_keeps_the_window (hex : string) (due : Z) (ev : Event) (s : State) :
  copySucceeds ev = false ->
  copiedColor s = (if now s <? due then Some hex else None) ->
  timeouts s = (if now s <? due then [due] else []) ->
  copiedColor (step ev s) = (if now (step ev s) <? due then Some hex else None) /\
  timeouts (step ev s) = (if now (step ev s) <? due then [due] else []).
Proof.
  intros Hev Hflag Hdue.
  assert (Hkeep : copiedColor (step ev s) = copiedColor s ->
                  timeouts (step ev s) = timeouts s ->
                  now (step ev s) = now s ->
                  copiedColor (step ev s) = (if now (step ev s) <? due then Some hex else None) /\
                  timeouts (step ev s) = (if now (step ev s) <? due then [due] else [])).
  { intros H1 H2 H3. rewrite H1, H2, H3. split; assumption. }
  assert (Hother : match ev with ClipboardSettles _ | Elapse _ => False | _ => True end ->
                   copiedColor (step ev s)
                   = (if now (step ev s) <? due then Some hex else None) /\
                   timeouts (step ev s) = (if now (step ev s) <? due then [due] else [])).
  { intros Hm. destruct (step_keeps_timers ev s Hm) as (H1 & H2 & H3).
    apply Hkeep; assumption. }
  destruct ev; try (apply Hother; exact I); clear Hother.
  - (* the answer to a clipboard write: rejected, or nothing was pending *)
    apply Hkeep; unfold step, commit; cbn [copiedColor timeouts now set_interval handle];
      (destruct (pendingCopies s); [reflexivity|]);
      (destruct outcome; [discriminate Hev | reflexivity]).
  - (* time passes *)
    unfold step, commit. cbn [copiedColor timeouts now set_interval handle].
    rewrite elapse_record. cbn [copiedColor timeouts now]. rewrite Hflag, Hdue.
    destruct (Z.ltb_spec (now s) due) as [Hopen|Hover]; cbn [List.filter].
    + destruct (Z.leb_spec due (now s + Z.of_N dt)) as [Hfire|Hwait]; cbn [negb];
        destruct (Z.ltb_spec (now s + Z.of_N dt) due); try lia; split; reflexivity.
    + destruct (Z.ltb_spec (now s + Z.of_N dt) due); try lia. split; reflexivity.
Qed.

(** C7, as the code has it: every successful copy raises the flag for that
    hex value, raises the "Copied!" toast and schedules one timeout 2000 ms
    ahead.  When no earlier timeout is pending and no other copy succeeds
    meanwhile, then whatever else happens the flag stands at every moment
    before the 2000 ms are over and is null from then on, the timeout being
    spent; and a timeout coming due never sets the flag to a hex value. *)
Theorem copied_flag_clears_after_window (hex : string) (s : State) (evs : list Event) :
  let s1 := copyToClipboard hex (Fulfilled tt) s in
  (copiedColor s1 = Some hex /\
   timeouts s1 = (timeouts s ++ [now s + 2000])%list /\
   now s1 = now s /\
   toasts s1 = (toasts s ++
                [{| title := "Copied!";
                    description := append "Color " (append hex " copied to clipboard");
                    variant := None |}])%list) /\
  (timeouts s = [] ->
   Forall (fun ev => copySucceeds ev = false) evs ->
   copiedColor (run evs s1)
   = (if now (run evs s1) <? now s + 2000 then Some hex else None) /\
   timeouts (run evs s1)
   = (if now (run evs s1) <? now s + 2000 then [now s + 2000] else [])) /\
  (forall (dt : N) (s0 : State),
      copiedColor (elapse dt s0) = copiedColor s0 \/ copiedColor (elapse dt s0) = None).
Proof.
  intros s1. split; [repeat split|]. split; [|intros dt s0; apply elapse_never_raises].
  intros Hnone Hevs.
  assert (Hflag : copiedColor s1 = (if now s1 <? now s + 2000 then Some hex else None)).
  { change (now s1) with (now s).
    destruct (Z.ltb_spec (now s) (now s + 2000)); [reflexivity | lia]. }
  assert (Hdue : timeouts s1 = (if now s1 <? now s + 2000 then [now s + 2000] else [])).
  { change (now s1) with (now s). change (timeouts s1) with (timeouts s ++ [now s + 2000])%list.
    rewrite Hnone. destruct (Z.ltb_spec (now s) (now s + 2000)); [reflexivity | lia]. }
  clearbody s1. revert s1 Hflag Hdue.
  induction Hevs as [|ev evs Hev _ IH]; intros s1 Hflag Hdue; [split; assumption|].
  cbn [run fold_left].
  destruct (step_keeps_the_window hex (now s + 2000) ev s1 Hev Hflag Hdue) as [H1 H2].
  apply IH; assumption.
Qed.

Lemma copied_flag_clears_after_window_witness :
  let s1 := copyToClipboard "#aaaaaa" (Fulfilled tt) capturingWhite in
  copiedColor (run [Tick; Elapse 1000; ClickCopy Top; ClipboardSettles (Rejected "denied");
                    Elapse 999] s1) = Some "#aaaaaa" /\
  copiedColor (run [Tick; Elapse 1000; ClickCopy Top; ClipboardSettles (Rejected "denied");
                    Elapse 1000] s1) = None.
Proof.
  pose proof (copied_flag_clears_after_window "#aaaaaa" capturingWhite
                [Tick; Elapse 1000; ClickCopy Top; ClipboardSettles (Rejected "denied");
                 Elapse 999]) as H1.
  pose proof (copied_flag_clears_after_window "#aaaaaa" capturingWhite
                [Tick; Elapse 1000; ClickCopy Top; ClipboardSettles (Rejected "denied");
                 Elapse 1000]) as H2.
  cbv zeta in H1, H2.
  destruct H1 as (_ & H1 & _). destruct H2 as (_ & H2 & _).
  specialize (H1 eq_refl ltac:(repeat constructor)).
  specialize (H2 eq_refl ltac:(repeat constructor)).
  cbv zeta. split.
  - rewrite (proj1 H1). reflexivity.
  - rewrite (proj1 H2). reflexivity.
Defined.

Lemma filter_none_keeps_all (f : Z -> bool) (l : list Z) :
  List.filter f l = [] -> List.filter (fun d => negb (f d)) l = l.
Proof.
  induction l as [|d l IH]; [reflexivity|]. cbn [List.filter].
  destruct (f d); [discriminate|]. intros H. cbn [negb]. rewrite IH by exact H. reflexivity.
Qed.

Lemma step_keeps_timersInvariant (ev : Event) (s : State) :
  timersInvariant s -> timersInvariant (step ev s).
Proof.
  intros [Hdue Hflag].
  assert (Hkeep : match ev with ClipboardSettles _ | Elapse _ => False | _ => True end ->
                  timersInvariant (step ev s)).
  { intros Hev. destruct (step_keeps_timers ev s Hev) as (H1 & H2 & H3).
    unfold timersInvariant. rewrite H1, H2, H3. split; assumption. }
  destruct ev; try (apply Hkeep; exact I); clear Hkeep; unfold timersInvariant.
  - (* the answer to a clipboard write *)
    unfold step, commit. cbn [copiedColor timeouts now set_interval handle].
    destruct (pendingCopies s) as [|copied rest]; [split; [exact Hdue | exact Hflag]|].
    destruct outcome as [[]|reason]; [|split; [exact Hdue | exact Hflag]].
    cbn. split.
    + apply Forall_app. split; [exact Hdue|]. constructor; [lia | constructor].
    + intros _. destruct (timeouts s); discriminate.
  - (* time passes *)
    unfold step, commit. cbn [copiedColor timeouts now set_interval handle].
    rewrite elapse_record. cbn [copiedColor timeouts now]. split.
    + apply List.Forall_forall. intros d Hd. apply filter_In in Hd as [Hd _].
      pose proof (proj1 (List.Forall_forall _ _) Hdue d Hd) as Hle. cbv beta in Hle. lia.
    + destruct (List.filter (fun d => d <=? now s + Z.of_N dt) (timeouts s)) eqn:Hnone;
        [|intros H; contradiction].
      intros Hraised. rewrite (filter_none_keeps_all _ _ Hnone). apply Hflag, Hraised.
Qed.

(** X14: whatever has happened before, 2000 ms without a copy are enough
    to lower the copied flag and to spend every timeout: from a state in
    which every pending timeout is due within 2000 ms and a raised flag has
    a timeout pending (the mounted component is one), after any events and
    then at least 2000 ms, the flag is null and no timeout is left. *)
Theorem copied_flag_never_outlives_its_window (evs : list Event) (s : State) (dt : N) :
  timersInvariant s -> (2000 <= dt)%N ->
  copiedColor (elapse dt (run evs s)) = None /\
  timeouts (elapse dt (run evs s)) = [].
Proof.
  intros Hinv Hdt.
  assert (H : timersInvariant (run evs s)).
  { revert s Hinv. induction evs as [|ev evs IH]; intros s Hinv; [exact Hinv|].
    cbn [run fold_left]. apply IH, step_keeps_timersInvariant, Hinv. }
  destruct H as [Hdue Hflag]. set (s' := run evs s) in *.
  rewrite elapse_record. cbn [copiedColor timeouts].
  assert (Hall : forall l, Forall (fun due => due <= now s' + 2000) l ->
            List.filter (fun d => d <=? now s' + Z.of_N dt) l = l /\
            List.filter (fun d => negb (d <=? now s' + Z.of_N dt)) l = []).
  { intros l Hl. induction Hl as [|d l Hd _ [IH1 IH2]]; [split; reflexivity|].
    cbn [List.filter]. replace (d <=? now s' + Z.of_N dt) with true
      by (symmetry; apply Z.leb_le; lia).
    cbn [negb]. rewrite IH1, IH2. split; reflexivity. }
  destruct (Hall _ Hdue) as [Hfired Hleft]. rewrite Hfired, Hleft.
  split; [|reflexivity].
  destruct (timeouts s') eqn:Hnone; [|reflexivity].
  destruct (copiedColor s') eqn:Hcopied; [|reflexivity].
  exfalso. apply Hflag; [discriminate | reflexivity].
Qed.

Lemma copied_flag_never_outlives_its_window_witness :
  copiedColor
    (elapse 2000
       (run [ClickCamera; CameraSettles (Fulfilled camera1); ClickCopy Top;
             ClipboardSettles (Fulfilled tt); Elapse 1500; ClickCopy Bottom;
             ClipboardSettles (Fulfilled tt)] mounted)) = None.
Proof.
  refine (proj1 (copied_flag_never_outlives_its_window
                   [ClickCamera; CameraSettles (Fulfilled camera1); ClickCopy Top;
                    ClipboardSettles (Fulfilled tt); Elapse 1500; ClickCopy Bottom;
                    ClipboardSettles (Fulfilled tt)] mounted 2000 _ _)).
  - split; [constructor | intros H; exfalso; apply H; reflexivity].
  - discriminate.
Defined.

(** ** Copying *)

Lemma step_keeps_pendingCopies (ev : Event) (s : State) :
  clipboardEvent ev = false -> pendingCopies (step ev s) = pendingCopies s.
Proof.
  intros Hev. unfold step, commit. cbn [pendingCopies set_interval].
  destruct ev; try discriminate Hev; cbn [handle].
  - destruct (isActive s); [unfold stopCamera; destruct (streamRef s)|]; reflexivity.
  - destruct (pendingMedia s); [reflexivity|].
    destruct outcome; cbn; [destruct (videoRef s)|]; reflexivity.
  - destruct (isActive s); reflexivity.
  - unfold handleMouseMove. destruct (isDragging s) as [[]|], container; reflexivity.
  - destruct (isDragging s); reflexivity.
  - destruct (interval s); [|reflexivity].
    unfold updateColors. repeat case_match; reflexivity.
  - destruct (videoRef s); reflexivity.
  - rewrite elapse_record. reflexivity.
Qed.

(** X15: a copy button hands over the hex string its swatch shows when it is
    pressed: with no other clipboard write under way, whatever happens
    before the write is answered - ticks that change the sample included -
    a successful answer raises the flag for the value shown at the press. *)
Theorem copy_takes_the_colour_at_the_press
    (name : PointName) (evs : list Event) (s : State) :
  isActive s = true -> pendingCopies s = [] ->
  Forall (fun ev => clipboardEvent ev = false) evs ->
  let s' := step (ClipboardSettles (Fulfilled tt)) (run evs (step (ClickCopy name) s)) in
  copiedColor s' = Some (hex (colorOf name s)) /\ pendingCopies s' = [].
Proof.
  intros Hactive Hnone Hevs s'.
  assert (Hpressed : pendingCopies (step (ClickCopy name) s) = [hex (colorOf name s)]).
  { unfold step, commit. cbn [handle pendingCopies set_interval].
    rewrite Hactive. cbn. rewrite Hnone. destruct name; reflexivity. }
  assert (Hwaiting : pendingCopies (run evs (step (ClickCopy name) s))
                     = [hex (colorOf name s)]).
  { revert Hpressed. generalize (step (ClickCopy name) s) as s0.
    induction Hevs as [|ev evs Hev _ IH]; intros s0 Hs0; [exact Hs0|].
    cbn [run fold_left]. apply IH. rewrite step_keeps_pendingCopies by exact Hev. exact Hs0. }
  subst s'. set (waiting := run evs (step (ClickCopy name) s)) in *.
  clearbody waiting. unfold step, commit. cbn [handle]. rewrite Hwaiting.
  split; reflexivity.
Qed.

Lemma copy_takes_the_colour_at_the_press_witness :
  let s := run [MouseDown Top; farCorner; MouseUp] capturingWhite in
  copiedColor (step (ClipboardSettles (Fulfilled tt)) (run [Tick] (step (ClickCopy Top) s)))
  = Some (hex (colorOf Top s)).
Proof.
  pose proof (copy_takes_the_colour_at_the_press Top [Tick]
                (run [MouseDown Top; farCorner; MouseUp] capturingWhite)
                eq_refl eq_refl ltac:(repeat constructor)) as H.
  cbv zeta in H. exact (proj1 H).
Defined.

(** ** The variant with fixed points *)

Lemma half_is_fifty_percent (dimension : Z) :
  Math_floor (div (of_Z dimension) (Fin 2)) = toPixel (Fin 50) dimension.
Proof.
  rewrite toPixel_Fin. unfold of_Z. cbn [div].
  change ((2 ?= 0)%Q) with Gt. cbn [Math_floor]. unfold of_Z.
  do 2 f_equal. apply Qfloor_comp. field.
Qed.

Lemma fraction_is_percent (dimension : Z) (tenths percent : Q) :
  (tenths * 100 == percent)%Q ->
  Math_floor (mul (of_Z dimension) (Fin tenths)) = toPixel (Fin percent) dimension.
Proof.
  intros H. rewrite toPixel_Fin. unfold of_Z. cbn [mul Math_floor]. unfold of_Z.
  do 2 f_equal. apply Qfloor_comp. rewrite <- H. field.
Qed.

Lemma fixed_points_initial (active : bool) (s : State) :
  FixedPoints.updateColors active s
  = updateColors {| captured_isActive := active;
                    captured_topPoint := topPoint initialState;
                    captured_bottomPoint := bottomPoint initialState |} s.
Proof.
  unfold FixedPoints.updateColors, updateColors.
  cbn [captured_isActive captured_topPoint captured_bottomPoint topPoint bottomPoint
       initialState x y].
  destruct (videoRef s) as [video|]; [|reflexivity].
  rewrite half_is_fifty_percent.
  rewrite (fraction_is_percent (videoHeight video) (2 # 10) 20) by reflexivity.
  rewrite (fraction_is_percent (videoHeight video) (8 # 10) 80) by reflexivity.
  reflexivity.
Qed.

(** X16: the fixed variant samples what the draggable variant samples while
    its points are where they start, at (50,20) and (50,80): on every state
    the two timer callbacks give the same result. *)
Theorem fixed_points_are_the_initial_points (active : bool) (s : State) :
  FixedPoints.updateColors active s
  = updateColors {| captured_isActive := active;
                    captured_topPoint := topPoint initialState;
                    captured_bottomPoint := bottomPoint initialState |} s.
Proof. apply fixed_points_initial. Qed.

Lemma pixelOf_integer (p dimension : Z) :
  pixelOf (of_Z p) dimension = p * dimension / 100.
Proof.
  pose proof (toPixel_integer p dimension) as H. unfold of_Z at 1 in H.
  rewrite toPixel_Fin in H. injection H as H. exact H.
Qed.

(** X17: the fixed variant never reads off the picture: with the video, the
    canvas and its context at hand and a picture of known size, a tick sets
    the top sample to the colour at (width/2, height/5) and the bottom sample
    to the colour at (width/2, 4*height/5), integer quotients, both on the
    picture. *)
Theorem fixed_points_sample_the_picture
    (s : State) (video : HTMLVideoElement) (canvas : HTMLCanvasElement) :
  videoRef s = Some video -> canvasRef s = Some canvas -> getContext2d canvas = true ->
  0 < videoWidth video < 2 ^ 31 -> 0 < videoHeight video < 2 ^ 31 ->
  let centerX := videoWidth video / 2 in
  let topY := videoHeight video / 5 in
  let bottomY := 4 * videoHeight video / 5 in
  (0 <= centerX < videoWidth video /\ 0 <= topY < videoHeight video /\
   0 <= bottomY < videoHeight video) /\
  topColor (FixedPoints.updateColors true s) = sampleOf (frame video centerX topY) /\
  bottomColor (FixedPoints.updateColors true s) = sampleOf (frame video centerX bottomY).
Proof.
  intros Hvideo Hcanvas Hctx Hw Hh centerX topY bottomY.
  assert (Hx : pixelOf (Fin 50) (videoWidth video) = centerX).
  { change (Fin 50) with (of_Z 50). rewrite pixelOf_integer. subst centerX.
    change 100 with (50 * 2). apply Z.div_mul_cancel_l; lia. }
  assert (Hty : pixelOf (Fin 20) (videoHeight video) = topY).
  { change (Fin 20) with (of_Z 20). rewrite pixelOf_integer. subst topY.
    change 100 with (20 * 5). apply Z.div_mul_cancel_l; lia. }
  assert (Hby : pixelOf (Fin 80) (videoHeight video) = bottomY).
  { change (Fin 80) with (of_Z 80). rewrite pixelOf_integer. subst bottomY.
    replace (80 * videoHeight video) with (20 * (4 * videoHeight video)) by lia.
    change 100 with (20 * 5). apply Z.div_mul_cancel_l; lia. }
  assert (Hrange : 0 <= centerX < videoWidth video /\ 0 <= topY < videoHeight video /\
                   0 <= bottomY < videoHeight video).
  { subst centerX topY bottomY. repeat split;
      try (apply Z.div_pos; lia); apply Z.div_lt_upper_bound; lia. }
  split; [exact Hrange|].
  rewrite fixed_points_initial.
  rewrite (updateColors_percentages _ s video canvas); auto;
    try (split; cbn; split; discriminate).
  cbn [captured_topPoint captured_bottomPoint topPoint bottomPoint initialState x y
       topColor bottomColor setTopColor setBottomColor].
  rewrite Hx, Hty, Hby.
  assert (Hon : forall px py, 0 <= px < videoWidth video -> 0 <= py < videoHeight video ->
            pictureAt video px py = frame video px py).
  { intros px py Hpx Hpy. unfold pictureAt.
    replace (0 <=? px) with true by (symmetry; apply Z.leb_le; lia).
    replace (px <? videoWidth video) with true by (symmetry; apply Z.ltb_lt; lia).
    replace (0 <=? py) with true by (symmetry; apply Z.leb_le; lia).
    replace (py <? videoHeight video) with true by (symmetry; apply Z.ltb_lt; lia).
    reflexivity. }
  rewrite !Hon by tauto. split; reflexivity.
Qed.

Lemma fixed_points_sample_the_picture_witness :
  topColor (FixedPoints.updateColors true capturingWhite) = sampleOf (white (1280 / 2) (720 / 5)).
Proof.
  pose proof (fixed_points_sample_the_picture capturingWhite
                {| videoWidth := 1280; videoHeight := 720; frame := white;
                   srcObject := Some camera1; playing := true |}
                {| getContext2d := true |}
                eq_refl eq_refl eq_refl ltac:(cbn; lia) ltac:(cbn; lia)) as H.
  cbv zeta in H. destruct H as (_ & H & _). exact H.
Defined.

(** ** What a start does not do *)

(** X18: startCamera never stops a track.  When it is resumed with a granted
    stream while another stream is held, a running track of the old stream
    that is not part of the new one keeps running, the handle moves to the
    new stream, and a stop afterwards does not reach the old track. *)
Theorem startCamera_never_stops_a_track
    (held granted : MediaStream) (track : nat) (s : State) :
  streamRef s = Some held ->
  track ∈ liveTracks s ->
  ~ In track (getTracks granted) ->
  let s' := startCamera (Fulfilled granted) (getUserMedia (Fulfilled granted) s) in
  liveTracks s ⊆ liveTracks s' /\
  streamRef s' = Some granted /\
  (track ∈ liveTracks s') /\
  (track ∈ liveTracks (stopCamera s')).
Proof.
  intros Hheld Hlive Hnew s'.
  assert (Hlive' : liveTracks s' = liveTracks s ∪ list_to_set (getTracks granted)).
  { subst s'. unfold startCamera, getUserMedia.
    cbn [videoRef set_streamRef set_liveTracks]. destruct (videoRef s); reflexivity. }
  assert (Hstream' : streamRef s' = Some granted).
  { subst s'. unfold startCamera, getUserMedia.
    cbn [videoRef set_streamRef set_liveTracks]. destruct (videoRef s); reflexivity. }
  assert (Hstill : track ∈ liveTracks s') by (rewrite Hlive'; apply elem_of_union; tauto).
  split; [|split; [exact Hstream'|split; [exact Hstill|]]].
  - rewrite Hlive'. intros t Ht. apply elem_of_union. tauto.
  - clearbody s'. unfold stopCamera. rewrite Hstream'. cbn.
    apply elem_of_stopTracks. tauto.
Qed.

Lemma startCamera_never_stops_a_track_witness :
  let s := startCamera (Fulfilled camera1) (getUserMedia (Fulfilled camera1) mounted) in
  let s' := startCamera (Fulfilled camera2) (getUserMedia (Fulfilled camera2) s) in
  (1%nat ∈ liveTracks (stopCamera s')).
Proof.
  pose proof (startCamera_never_stops_a_track camera1 camera2 1%nat
                (startCamera (Fulfilled camera1) (getUserMedia (Fulfilled camera1) mounted))
                eq_refl
                ltac:(change (1%nat ∈ (∅ ∪ list_to_set (getTracks camera1) : gset nat));
                      apply elem_of_union; right;
                      apply elem_of_list_to_set, list_elem_of_In; left; reflexivity)
                ltac:(cbn; lia)) as H.
  cbv zeta in H. cbv zeta. exact (proj2 (proj2 (proj2 H))).
Defined.

(** ** Order of the pixels *)



(** ** Reading a pixel *)

(** X20: with the video, the canvas and its 2D context at hand, at integer
    coordinates (32-bit) getColorAtPoint returns, without throwing, the
    colour of the picture at that pixel - hex and rgb of its red, green and
    blue bytes, the alpha byte ignored - and black at any pixel off the
    picture. *)
Theorem getColorAtPoint_reads_the_pixel
    (s : State) (video : HTMLVideoElement) (canvas : HTMLCanvasElement) (px py : Z) :
  videoRef s = Some video -> canvasRef s = Some canvas -> getContext2d canvas = true ->
  - 2 ^ 31 <= px < 2 ^ 31 -> - 2 ^ 31 <= py < 2 ^ 31 ->
  getColorAtPoint (of_Z px) (of_Z py) s
  = Returns
      (if (0 <=? px) && (px <? videoWidth video) && (0 <=? py) && (py <? videoHeight video)
       then let '(red, green, blue, _) := frame video px py in
            {| hex := rgbToHex (channel red) (channel green) (channel blue);
               rgb := {| r := channel red; g := channel green; b := channel blue |} |}
       else black).
Proof.
  intros Hvideo Hcanvas Hctx Hx Hy.
  rewrite (getColorAtPoint_integer s video canvas) by assumption.
  unfold pictureAt.
  destruct ((0 <=? px) && (px <? videoWidth video) && (0 <=? py) && (py <? videoHeight video));
    reflexivity.
Qed.

Lemma getColorAtPoint_reads_the_pixel_witness :
  getColorAtPoint (of_Z 640) (of_Z 144) capturingWhite = Returns (sampleOf (white 640 144)) /\
  getColorAtPoint (of_Z 1280) (of_Z 144) capturingWhite = Returns black.
Proof.
  split.
  - exact (getColorAtPoint_reads_the_pixel capturingWhite
             {| videoWidth := 1280; videoHeight := 720; frame := white;
                srcObject := Some camera1; playing := true |}
             {| getContext2d := true |} 640 144
             eq_refl eq_refl eq_refl ltac:(cbn; lia) ltac:(cbn; lia)).
  - exact (getColorAtPoint_reads_the_pixel capturingWhite
             {| videoWidth := 1280; videoHeight := 720; frame := white;
                srcObject := Some camera1; playing := true |}
             {| getContext2d := true |} 1280 144
             eq_refl eq_refl eq_refl ltac:(cbn; lia) ltac:(cbn; lia)).
Defined.

(** ** The conversion on doubles *)

Lemma nearQuotient_table :
  forallb (fun d => forallb (fun p => Binary64.nearQuotient p d) Binary64.wholePercentages)
          Binary64.dimensions = true.
Proof. vm_compute. reflexivity. Qed.

(** X21: in binary64, for every whole percentage from 0 to 100 and every
    dimension from 1 to 256 or among the common video sizes up to 7680, the
    pixel the conversion computes is the integer quotient
    percent * dimension / 100 or one less; it is never negative, it is below
    the dimension for a percentage below 100, and it is the dimension itself
    at 100. *)
Theorem binary64_pixel_is_the_quotient_or_one_less (percent dimension : Z) :
  0 <= percent <= 100 -> In dimension Binary64.dimensions ->
  exists z : Z,
    Binary64.toPixel (Binary64.ofZ percent) (Binary64.ofZ dimension) = Some z /\
    percent * dimension / 100 - 1 <= z <= percent * dimension / 100 /\
    0 <= z /\
    (if percent <? 100 then z < dimension else z = dimension).
Proof.
  intros Hp Hdin.
  assert (Hpin : In percent Binary64.wholePercentages).
  { unfold Binary64.wholePercentages. apply in_map_iff. exists (Z.to_nat percent).
    split; [lia | apply in_seq; lia]. }
  pose proof (proj1 (forallb_forall _ _) nearQuotient_table dimension Hdin) as Hrow.
  cbv beta in Hrow.
  pose proof (proj1 (forallb_forall _ _) Hrow percent Hpin) as Hcell.
  cbv beta in Hcell. unfold Binary64.nearQuotient in Hcell.
  destruct (Binary64.toPixel (Binary64.ofZ percent) (Binary64.ofZ dimension)) as [z|];
    [|discriminate Hcell].
  exists z. split; [reflexivity|].
  apply andb_prop in Hcell as [Hcell Hlast].
  apply andb_prop in Hcell as [Hcell Hpos].
  apply andb_prop in Hcell as [Hlo Hhi].
  apply Z.leb_le in Hlo, Hhi, Hpos.
  split; [lia|]. split; [exact Hpos|].
  destruct (percent <? 100); [apply Z.ltb_lt | apply Z.eqb_eq]; exact Hlast.
Qed.

Lemma binary64_pixel_is_the_quotient_or_one_less_witness :
  Binary64.toPixel (Binary64.ofZ 35) (Binary64.ofZ 720) = Some 251 /\
  exists z : Z,
    Binary64.toPixel (Binary64.ofZ 35) (Binary64.ofZ 720) = Some z /\
    35 * 720 / 100 - 1 <= z <= 35 * 720 / 100.
Proof.
  split; [vm_compute; reflexivity|].
  destruct (binary64_pixel_is_the_quotient_or_one_less 35 720 ltac:(lia)
              ltac:(apply in_or_app; right; cbn; tauto))
    as (z & Hz & Hrange & _).
  exists z. split; [exact Hz | exact Hrange].
Defined.
